(** * Informativeness plots: a model of [sample_info/modules/visualizations.py]

    The module converts per-sample informativeness scores to a flat numpy
    array and hands histograms, density curves and example images to
    matplotlib.  The model below keeps the Python control flow of the four
    functions of the file; the numpy, torch, scikit-learn, matplotlib and
    nnlib calls they make are modelled from the documented behaviour of those
    libraries, and the purely numerical ones (automatic bin edges, kernel
    density values, image rendering) are parameters of the model.

    Scores are rationals: the model covers finite float values and leaves
    rounding, infinities and NaN out. *)

From Stdlib Require Import QArith Qminmax Lqa.
From stdpp Require Import base option list gmap sets sorting strings pretty.

Set Warnings "-register-all".

Local Open Scope Z_scope.
Local Open Scope string_scope.
Local Open Scope list_scope.

(** ** Python results and array storage *)

(** The exceptions the module and its library calls can raise. *)
Inductive exn :=
  | ValueError (msg : string)
  | IndexError
  | TypeError
  | RuntimeError
  | ReferenceError.

Inductive result (A : Type) :=
  | Ok (a : A)
  | Raise (e : exn).
Arguments Ok {A} a.
Arguments Raise {A} e.

(** Array storage: numpy arrays and torch tensors are a shape over a buffer of
    elements; two objects over the same buffer alias each other. *)
Abbreviation loc := nat (only parsing).
Abbreviation heap := (gmap nat (list Q)) (only parsing).

(** Computations read and allocate buffers and may raise; the store is kept
    on an exceptional exit too. *)
Definition M (A : Type) : Type := heap → result A * heap.

#[global] Instance M_ret : MRet M := λ A a h, (Ok a, h).
#[global] Instance M_bind : MBind M := λ A B f m h,
  match m h with
  | (Ok a, h') => f a h'
  | (Raise e, h') => (Raise e, h')
  end.

Definition raise {A} (e : exn) : M A := λ h, (Raise e, h).

Definition alloc (b : list Q) : M loc := λ h,
  let l := fresh (dom h) in (Ok l, <[l := b]> h).

Definition load (l : loc) : M (list Q) := λ h,
  match h !! l with
  | Some b => (Ok b, h)
  | None => (Raise ReferenceError, h)
  end.

(** ** Python values a caller can pass as scores *)

Inductive device := Cpu | Cuda.

Record tensor := Tensor {
  t_data : loc;
  t_shape : list nat;
  t_device : device;
  t_contiguous : bool
}.

Record ndarray := Ndarray {
  nd_data : loc;
  nd_shape : list nat
}.

Inductive pyval :=
  | PyNone
  | PyInt (z : Z)
  | PyFloat (x : Q)
  | PyStr (s : string)
  | PyTensor (t : tensor)
  | PyNdarray (a : ndarray)
  | PyList (l : list pyval).

#[global] Instance device_eq_dec : EqDecision device.
Proof. solve_decision. Defined.

Definition numel (shape : list nat) : nat := foldr Nat.mul 1%nat shape.

(** ** torch and numpy calls of [convert_scores_to_numpy] *)

(** [torch.Tensor.flatten]: the tensor itself or a view of it when it can be
    viewed flat, a copy otherwise. *)
Definition tensor_flatten (t : tensor) : M tensor :=
  if t_contiguous t then
    mret (Tensor (t_data t) [numel (t_shape t)] (t_device t) true)
  else
    b ← load (t_data t);
    l ← alloc b;
    mret (Tensor l [numel (t_shape t)] (t_device t) true).

(** [nnlib.utils.to_numpy] on a tensor.  nnlib is not among the sources; the
    call is modelled as [x.detach().cpu().numpy()]: a host tensor and the
    array share memory, a device tensor is copied to the host. *)
Definition to_numpy (t : tensor) : M ndarray :=
  match t_device t with
  | Cpu => mret (Ndarray (t_data t) (t_shape t))
  | Cuda =>
      b ← load (t_data t);
      l ← alloc b;
      mret (Ndarray l (t_shape t))
  end.

(** [numpy.ndarray.flatten]: always a copy. *)
Definition ndarray_flatten (a : ndarray) : M ndarray :=
  b ← load (nd_data a);
  l ← alloc b;
  mret (Ndarray l [numel (nd_shape a)]).

Definition isinstance_tensor (v : pyval) : bool :=
  match v with PyTensor _ => true | _ => false end.

Fixpoint expect_tensors (l : list pyval) : M (list tensor) :=
  match l with
  | [] => mret []
  | PyTensor t :: l' => ts ← expect_tensors l'; mret (t :: ts)
  | _ :: _ => raise TypeError
  end.

Fixpoint load_all (ts : list tensor) : M (list (list Q)) :=
  match ts with
  | [] => mret []
  | t :: ts' => b ← load (t_data t); bs ← load_all ts'; mret (b :: bs)
  end.

Definition same_layout (t0 t : tensor) : bool :=
  bool_decide (t_shape t = t_shape t0) && bool_decide (t_device t = t_device t0).

(** [torch.stack]: a new tensor with one more leading dimension; every element
    must be a tensor (TypeError) of the shape and device of the first
    (RuntimeError), and the list must not be empty. *)
Definition torch_stack (l : list pyval) : M tensor :=
  ts ← expect_tensors l;
  match ts with
  | [] => raise RuntimeError
  | t0 :: _ =>
      if forallb (same_layout t0) ts then
        bs ← load_all ts;
        l ← alloc (concat bs);
        mret (Tensor l (length ts :: t_shape t0) (t_device t0) true)
      else raise RuntimeError
  end.

(** ** [convert_scores_to_numpy] (lines 25-32) *)

Definition convert_scores_to_numpy (scores : pyval) : M ndarray :=
  match scores with
  | PyList [] =>
      (* [scores[0]] is evaluated before any type test succeeds *)
      raise IndexError
  | PyList ((x :: _) as l) =>
      if isinstance_tensor x then
        t ← torch_stack l;
        t ← tensor_flatten t;
        to_numpy t
      else raise (ValueError "Cannot convert scores to a numpy array.")
  | PyTensor t =>
      t ← tensor_flatten t;
      to_numpy t
  | PyNdarray a => ndarray_flatten a
  | _ => raise (ValueError "Cannot convert scores to a numpy array.")
  end.

(** ** numpy and Python sequence operations used by the plots *)

#[global] Instance Qle_dec : RelDecision Qle := λ x y,
  match Qlt_le_dec y x with
  | left H => right (Qlt_not_le _ _ H)
  | right H => left H
  end.

#[global] Instance Qlt_dec : RelDecision Qlt := λ x y,
  match Qlt_le_dec x y with
  | left H => left H
  | right H => right (Qle_not_lt _ _ H)
  end.

(** [len(a)] of an array: its first dimension. *)
Definition np_len (a : ndarray) : nat := hd 0%nat (nd_shape a).

(** [x[mask]]: the elements at the true positions, in order. *)
Fixpoint compress {A} (mask : list bool) (x : list A) : list A :=
  match mask, x with
  | b :: mask', v :: x' => if b then v :: compress mask' x' else compress mask' x'
  | _, _ => []
  end.

(** [a[mask]] for a one-dimensional array: numpy refuses a mask of another
    length. *)
Definition np_getitem_mask (a : ndarray) (mask : list bool) : M (list Q) :=
  s ← load (nd_data a);
  if decide (length mask = length s) then mret (compress mask s)
  else raise IndexError.

(** numpy stores strings in fixed-width cells and drops the trailing NUL
    characters when it reads one back. *)
Fixpoint np_str (s : string) : string :=
  match s with
  | EmptyString => EmptyString
  | String c s' =>
      match np_str s' with
      | EmptyString => if bool_decide (c = Ascii.zero) then EmptyString
                       else String c EmptyString
      | r => String c r
      end
  end.

(** [np.array(groups) == g] for labels: both sides are compared as numpy
    strings. *)
Definition np_equal_str (groups : list string) (g : string) : list bool :=
  (λ x, bool_decide (np_str x = np_str g)) <$> groups.

(** [groups == g], elementwise. *)
Definition np_equal `{EqDecision A} (groups : list A) (g : A) : list bool :=
  (λ x, bool_decide (x = g)) <$> groups.

(** The largest element, if there is one. *)
Definition amax (s : list Q) : option Q :=
  match s with
  | [] => None
  | x :: s' => Some (foldl Qmax x s')
  end.

(** [np.max(a)]; an empty array has no maximum. *)
Definition np_max (a : ndarray) : M Q :=
  s ← load (nd_data a);
  match amax s with
  | None => raise (ValueError "zero-size array to reduction operation maximum which has no identity")
  | Some m => mret m
  end.

(** [np.linspace(start, stop, num)]: [num] evenly spaced points, both ends
    included. *)
Definition np_linspace (start stop : Q) (num : nat) : list Q :=
  (λ i : nat, start + inject_Z (Z.of_nat i) * ((stop - start) / inject_Z (Z.of_nat num - 1)))%Q
    <$> seq 0 num.

(** What [np.argsort(s)] may return: the positions of [s], each once, in
    ascending order of their values (the default sort is not stable, so the
    order among equal values is left open). *)
Definition score_le (s : list Q) (i j : nat) : Prop :=
  (nth i s 0 <= nth j s 0)%Q.

#[global] Instance score_le_dec s : RelDecision (score_le s) :=
  λ i j, Qle_dec _ _.

Definition is_argsort (s : list Q) (order : list nat) : Prop :=
  order ≡ₚ seq 0 (length s) ∧ Sorted (score_le s) order.

(** A sorting routine that meets [is_argsort]. *)
Definition merge_argsort (s : list Q) : list nat :=
  merge_sort (score_le s) (seq 0 (length s)).

(** Slice bounds as Python clamps them: a negative bound counts from the
    end. *)
Definition slice_bound (len : nat) (i : Z) : nat :=
  if decide (i < 0) then Z.to_nat (Z.max (Z.of_nat len + i) 0)
  else Z.to_nat (Z.min i (Z.of_nat len)).

(** [l[:stop]] and [l[start:]]. *)
Definition slice_to {A} (l : list A) (stop : Z) : list A :=
  take (slice_bound (length l) stop) l.
Definition slice_from {A} (l : list A) (start : Z) : list A :=
  drop (slice_bound (length l) start) l.

(** [l[i]] with Python's wrap-around of negative indices. *)
Definition py_getitem {A} (l : list A) (i : Z) : result A :=
  let j := if decide (i < 0) then Z.of_nat (length l) + i else i in
  if decide (j < 0) then Raise IndexError
  else match l !! Z.to_nat j with
       | Some x => Ok x
       | None => Raise IndexError
       end.

Definition lift {A} (r : result A) : M A := λ h, (r, h).

(** [sorted(list(set(xs)))]: the set forgets order and repetitions, [sorted]
    orders what is left. *)
Definition sorted_set_str (xs : list string) : list string :=
  merge_sort String.le (elements (list_to_set xs : gset string)).
Definition sorted_set_int (xs : list Z) : list Z :=
  merge_sort Z.le (elements (list_to_set xs : gset Z)).

(** ** matplotlib objects *)

Inductive pyplot := Pyplot (agg use_style : bool).

(** [nnlib.matplotlib_utils.import_matplotlib]. *)
Definition import_matplotlib (agg use_style : bool) : pyplot := Pyplot agg use_style.

(** The [bins] argument of [hist]: a number of bins or the bin edges. *)
Inductive bins_arg :=
  | BinCount (n : Z)
  | BinEdges (e : list Q).

(** numpy's checks on [bins]: a bin count is positive, bin edges do not
    decrease. *)
Fixpoint edges_increase (e : list Q) : bool :=
  match e with
  | x :: ((y :: _) as e') => bool_decide (x <= y)%Q && edges_increase e'
  | _ => true
  end.

Definition bins_ok (bins : bins_arg) : bool :=
  match bins with
  | BinCount n => bool_decide (0 < n)%Z
  | BinEdges e => edges_increase e
  end.

(** What is drawn on an axes. *)
Inductive artist :=
  | Hist (x : list Q) (bins : bins_arg) (alpha : Q) (label : string) (density : bool)
  | Line (xs ys : list Q) (label : string)
  | Imshow (img : list Q) (vmin vmax : Q).

(** A grid cell range [gs[r0:r1, c0:c1]] of a figure. *)
Record slot := Slot { rows : Z * Z; cols : Z * Z }.

Record axes := Axes {
  ax_slot : option slot;
  ax_artists : list artist;
  ax_xlabel : option string;
  ax_ylabel : option string;
  ax_sci : list string;
  ax_legend : bool;
  ax_axis_off : bool
}.

Record text := Text {
  text_anchor : slot;
  text_dx : Q;
  text_dy : Q;
  text_s : string;
  text_size : Z;
  text_weight : string
}.

Record figure := Figure {
  fig_backend : pyplot;
  fig_figsize : Z * Z;
  fig_constrained_layout : bool;
  fig_axes : list axes;
  fig_texts : list text;
  fig_tight_layout : bool;
  fig_saved : list string
}.

Definition new_axes (sl : option slot) : axes :=
  Axes sl [] None None [] false false.

Definition ax_draw (ax : axes) (a : artist) : axes :=
  Axes (ax_slot ax) (ax_artists ax ++ [a]) (ax_xlabel ax) (ax_ylabel ax)
       (ax_sci ax) (ax_legend ax) (ax_axis_off ax).

Definition ax_plot (ax : axes) (xs ys : list Q) (label : string) : axes :=
  ax_draw ax (Line xs ys label).

Definition ax_imshow (ax : axes) (img : list Q) (vmin vmax : Q) : axes :=
  ax_draw ax (Imshow img vmin vmax).

Definition ax_set_xlabel (ax : axes) (s : string) : axes :=
  Axes (ax_slot ax) (ax_artists ax) (Some s) (ax_ylabel ax)
       (ax_sci ax) (ax_legend ax) (ax_axis_off ax).

Definition ax_set_ylabel (ax : axes) (s : string) : axes :=
  Axes (ax_slot ax) (ax_artists ax) (ax_xlabel ax) (Some s)
       (ax_sci ax) (ax_legend ax) (ax_axis_off ax).

(** [ax.ticklabel_format(axis=axis, style="sci", scilimits=(0, 0))]. *)
Definition ax_ticklabel_format_sci (ax : axes) (axis : string) : axes :=
  Axes (ax_slot ax) (ax_artists ax) (ax_xlabel ax) (ax_ylabel ax)
       (ax_sci ax ++ [axis]) (ax_legend ax) (ax_axis_off ax).

Definition ax_add_legend (ax : axes) : axes :=
  Axes (ax_slot ax) (ax_artists ax) (ax_xlabel ax) (ax_ylabel ax)
       (ax_sci ax) true (ax_axis_off ax).

Definition ax_set_axis_off (ax : axes) : axes :=
  Axes (ax_slot ax) (ax_artists ax) (ax_xlabel ax) (ax_ylabel ax)
       (ax_sci ax) (ax_legend ax) true.

(** [plt.figure(...)] and [plt.subplots(figsize=...)]. *)
Definition plt_figure (plt : pyplot) (constrained : bool) (figsize : Z * Z) : figure :=
  Figure plt figsize constrained [] [] false [].

Definition plt_subplots (plt : pyplot) (figsize : Z * Z) : figure * axes :=
  (Figure plt figsize false [new_axes None] [] false [], new_axes None).

(** A figure refers to its axes: what was drawn on them after their creation
    is seen through the figure. *)
Definition fig_with_axes (fig : figure) (axs : list axes) : figure :=
  Figure (fig_backend fig) (fig_figsize fig) (fig_constrained_layout fig) axs
         (fig_texts fig) (fig_tight_layout fig) (fig_saved fig).

Definition fig_text (fig : figure) (t : text) : figure :=
  Figure (fig_backend fig) (fig_figsize fig) (fig_constrained_layout fig) (fig_axes fig)
         (fig_texts fig ++ [t]) (fig_tight_layout fig) (fig_saved fig).

Definition fig_do_tight_layout (fig : figure) : figure :=
  Figure (fig_backend fig) (fig_figsize fig) (fig_constrained_layout fig) (fig_axes fig)
         (fig_texts fig) true (fig_saved fig).

(** [nnlib.visualizations.savefig(fig, name)]. *)
Definition savefig (fig : figure) (name : string) : figure :=
  Figure (fig_backend fig) (fig_figsize fig) (fig_constrained_layout fig) (fig_axes fig)
         (fig_texts fig) (fig_tight_layout fig) (fig_saved fig ++ [name]).

(** Truth value of [save_name] in [if save_name:]. *)
Definition truthy (save_name : option string) : bool :=
  match save_name with
  | None => false
  | Some s => negb (bool_decide (s = ""))
  end.

(** ** Datasets *)

(** A target of a dataset item: a class index or a vector over the classes. *)
Inductive target :=
  | Class (c : Z)
  | Vector (v : list Z).

#[global] Instance target_inhabited : Inhabited target := populate (Class 0).

(** An image is its pixel values; a dataset is a sequence of (image, target)
    pairs. *)
Abbreviation image := (list Q) (only parsing).
Abbreviation dataset := (list (list Q * target)) (only parsing).
Abbreviation kwargs := (list (string * pyval)) (only parsing).

(** Position of the first maximum. *)
Fixpoint argmax_from (best : Z) (besti i : nat) (v : list Z) : nat :=
  match v with
  | [] => besti
  | x :: v' => if decide (best < x) then argmax_from x i (S i) v'
               else argmax_from best besti (S i) v'
  end.

(** [torch.argmax(torch.tensor(y))]: 0 for a scalar, the first maximal
    position of a vector, an error for an empty one. *)
Definition torch_argmax (y : target) : result target :=
  match y with
  | Class _ => Ok (Class 0)
  | Vector [] => Raise RuntimeError
  | Vector (x :: v) => Ok (Class (Z.of_nat (argmax_from x 0 1 v)))
  end.

(** [y.item()]: the value of a tensor of exactly one element. *)
Definition tensor_item (y : target) : result Z :=
  match y with
  | Class c => Ok c
  | Vector [c] => Ok c
  | Vector _ => Raise RuntimeError
  end.

(** A list comprehension over a call that may raise. *)
Fixpoint comprehension {A B} (f : A → result B) (l : list A) : result (list B) :=
  match l with
  | [] => Ok []
  | x :: l' =>
      match f x with
      | Raise e => Raise e
      | Ok y => match comprehension f l' with
                | Raise e => Raise e
                | Ok ys => Ok (y :: ys)
                end
      end
  end.

(** A computation that leaves every buffer of the store as it was: the final
    store has all the bindings of the initial one. *)
Definition extends {A} (m : M A) : Prop :=
  ∀ h : gmap nat (list Q), h ⊆ (m h).2.

(** A computation that never fails with ValueError. *)
Definition no_value_error {A} (m : M A) : Prop :=
  ∀ (h : gmap nat (list Q)) e h', m h = (Raise e, h') → ∀ msg, e ≠ ValueError msg.

(** ** Preconditions and what the claims speak about *)

(** A tensor whose buffer is allocated and has the size of its shape. *)
Definition valid_tensor (h : heap) (t : tensor) (b : list Q) : Prop :=
  h !! t_data t = Some b ∧ length b = numel (t_shape t).

(** [convertible h scores s]: in store [h], [scores] is a numpy array, a torch
    tensor, or a non-empty list of tensors that [torch.stack] accepts, and [s]
    are its elements in row-major order. *)
Inductive convertible (h : heap) : pyval → list Q → Prop :=
  | convertible_ndarray a b :
      h !! nd_data a = Some b → length b = numel (nd_shape a) →
      convertible h (PyNdarray a) b
  | convertible_tensor t b :
      valid_tensor h t b →
      convertible h (PyTensor t) b
  | convertible_list t0 ts bs :
      Forall (λ t, same_layout t0 t = true) (t0 :: ts) →
      Forall2 (valid_tensor h) (t0 :: ts) bs →
      convertible h (PyList (PyTensor <$> t0 :: ts)) (concat bs).

(** Inputs outside the three accepted forms that reach the last line of
    [convert_scores_to_numpy]. *)
Definition unsupported (v : pyval) : bool :=
  match v with
  | PyNone | PyInt _ | PyFloat _ | PyStr _ => true
  | PyList (x :: _) => negb (isinstance_tensor x)
  | PyList [] | PyTensor _ | PyNdarray _ => false
  end.

(** The three forms the claim about [convert_scores_to_numpy] names. *)
Definition accepted_form (v : pyval) : bool :=
  match v with
  | PyNdarray _ | PyTensor _ => true
  | PyList (x :: _) => isinstance_tensor x
  | _ => false
  end.

(** The group labels are absent or one per score. *)
Definition groups_ok (groups : option (list string)) (s : list Q) : Prop :=
  match groups with
  | None => True
  | Some g => length g = length s
  end.

(** The scores whose label is [g], in order. *)
Definition scores_of_group (groups : list string) (s : list Q) (g : string) : list Q :=
  (filter (λ p, p.1 = g) (zip groups s)).*2.

(** The scores the code selects for the label [g]: the mask compares the
    labels as numpy strings. *)
Definition group_scores (groups : list string) (s : list Q) (g : string) : list Q :=
  compress (np_equal_str groups g) s.

(** A label numpy reads back as it was written: it has no trailing NUL. *)
Definition nul_free (g : string) : Prop := np_str g = g.

(** [indices] are [n] distinct positions of [s], in ascending order of score,
    and no position left out has a lower score. *)
Definition lowest_ranked (s : list Q) (n : nat) (indices : list nat) : Prop :=
  length indices = n ∧ NoDup indices ∧ Sorted (score_le s) indices ∧
  (∀ i, i ∈ indices → (i < length s)%nat) ∧
  (∀ i j, i ∈ indices → (j < length s)%nat → j ∉ indices → score_le s i j).

(** The same with no position left out having a higher score. *)
Definition highest_ranked (s : list Q) (n : nat) (indices : list nat) : Prop :=
  length indices = n ∧ NoDup indices ∧ Sorted (score_le s) indices ∧
  (∀ i, i ∈ indices → (i < length s)%nat) ∧
  (∀ i j, i ∈ indices → (j < length s)%nat → j ∉ indices → score_le s j i).

(** The images shown on the axes of a figure, in drawing order. *)
Definition artist_image (a : artist) : list (list Q) :=
  match a with
  | Imshow img _ _ => [img]
  | _ => []
  end.
Definition fig_images (fig : figure) : list (list Q) :=
  ax ← fig_axes fig; a ← ax_artists ax; artist_image a.

(** ** Stand-ins for the library computations, to run the model on examples *)

(** Evenly spaced edges over the range of the data. *)
Definition even_bin_edges (x : list Q) (n : Z) : list Q :=
  match x with
  | [] => np_linspace 0 1 (Z.to_nat (n + 1))
  | v :: x' => np_linspace (foldl Qmin v x') (foldl Qmax v x') (Z.to_nat (n + 1))
  end.

(** A density that only counts the fitted points. *)
Definition count_kde (bandwidth : Q) (x xs : list Q) : list Q :=
  (λ _, inject_Z (Z.of_nat (length x))) <$> xs.

(** Modelled from the spec: [plot_examples_from_dataset] of nnlib is not among
    the sources; the stand-in fetches the dataset items at the given indices
    for display, one axes per item in a grid row. *)
Fixpoint example_axes (data : dataset) (indices : list nat) (col : Z) : result (list axes) :=
  match indices with
  | [] => Ok []
  | idx :: rest =>
      match py_getitem data (Z.of_nat idx) with
      | Raise e => Raise e
      | Ok (x, _) =>
          match example_axes data rest (col + 1) with
          | Raise e => Raise e
          | Ok axs =>
              Ok (ax_set_axis_off
                    (ax_imshow (new_axes (Some (Slot (0, 1) (col, col + 1)))) x 0 1) :: axs)
          end
      end
  end.

Definition show_examples (data : dataset) (indices : list nat) (n_rows n_cols : Z)
    (savename : option string) (plt : pyplot) (kw : kwargs) : result (figure * axes) :=
  match example_axes data indices 0 with
  | Raise e => Raise e
  | Ok axs =>
      let fig := Figure plt (n_cols, n_rows) false axs [] false [] in
      let fig := match savename with Some name => savefig fig name | None => fig end in
      Ok (fig, default (new_axes None) (head axs))
  end.

(** Images shown as they are stored. *)
Definition no_normalization (x : list Q) (data : list (list Q * target)) : list Q := x.
Definition pixels (x : list Q) : list Q := x.

(** What a plotting call drew, when it returned. *)
Definition drawn (r : result (figure * axes) * gmap nat (list Q)) : option (list artist) :=
  match r.1 with
  | Ok (_, ax) => Some (ax_artists ax)
  | Raise _ => None
  end.

(** The images of the figure a plotting call returned. *)
Definition shown {A} (r : result (figure * A) * gmap nat (list Q)) : option (list (list Q)) :=
  match r.1 with
  | Ok (fig, _) => Some (fig_images fig)
  | Raise _ => None
  end.

(** Example stores and inputs. *)
Definition store3 : gmap nat (list Q) := {[ 0%nat := [3 # 1; 1 # 1; 2 # 1]%Q ]}.
Definition array3 : ndarray := Ndarray 0 [3%nat].
Definition tensor3 : tensor := Tensor 0 [3%nat] Cpu true.
Definition data3 : list (list Q * target) :=
  [([10 # 1]%Q, Class 0); ([11 # 1]%Q, Class 1); ([12 # 1]%Q, Class 0)].

Definition store0 : gmap nat (list Q) := {[ 0%nat := [] ]}.
Definition array0 : ndarray := Ndarray 0 [0%nat].
Definition labels3 : list string := ["b"; "a"; "b"].

Definition scores12 : list Q :=
  (λ z, inject_Z z) <$> [5; 3; 9; 1; 12; 7; 2; 11; 4; 8; 6; 10].
Definition store12 : gmap nat (list Q) := {[ 0%nat := scores12 ]}.
Definition array12 : ndarray := Ndarray 0 [12%nat].
Definition data12 : list (list Q * target) :=
  (λ i : nat, ([inject_Z (Z.of_nat i)], Class (Z.of_nat (i mod 2)))) <$> seq 0 12.

Definition scores20 : list Q :=
  (λ z, inject_Z z) <$>
    [5; 3; 9; 1; 12; 7; 2; 11; 4; 8; 6; 10; 20; 13; 19; 14; 18; 15; 17; 16].
Definition store20 : gmap nat (list Q) := {[ 0%nat := scores20 ]}.
Definition array20 : ndarray := Ndarray 0 [20%nat].
Definition data20 : list (list Q * target) :=
  (λ i : nat, ([inject_Z (Z.of_nat i)], Class (Z.of_nat (i mod 2)))) <$> seq 0 20.

(** Two scores under two labels that differ by a trailing NUL character. *)
Definition store2 : gmap nat (list Q) := {[ 0%nat := [1 # 1; 2 # 1]%Q ]}.
Definition array2 : ndarray := Ndarray 0 [2%nat].
Definition labels_nul : list string :=
  ["a"; "a" +:+ String Ascii.zero EmptyString].


Section Visualizations.

(** Library computations the module only passes through. *)

(** Bin edges matplotlib computes from the data for a number of bins. *)
Variable histogram_bin_edges : list Q → Z → list Q.
(** [np.exp(KernelDensity(kernel='gaussian', bandwidth).fit(x).score_samples(xs))]. *)
Variable gaussian_kde : Q → list Q → list Q → list Q.
(** The permutation [np.argsort] returns. *)
Variable argsort : list Q → list nat.
(** [nnlib.visualizations.plot_examples_from_dataset]. *)
Variable plot_examples_from_dataset :
  dataset → list nat → Z → Z → option string → pyplot → kwargs → result (figure * axes).
(** [revert_normalization(x, data)[0]] and [get_image] of nnlib. *)
Variable revert_normalization : image → dataset → image.
Variable get_image : image → image.

(** [ax.hist(x, bins=bins, ...)]: draws the histogram and returns the bin
    edges it used: the given ones, or the ones computed for a bin count;
    numpy raises ValueError for a bin count below one and for edges that
    decrease. *)
Definition hist_edges (x : list Q) (bins : bins_arg) : list Q :=
  match bins with
  | BinEdges e => e
  | BinCount n => histogram_bin_edges x n
  end.

Definition ax_hist (ax : axes) (x : list Q) (bins : bins_arg) (alpha : Q)
    (label : string) (density : bool) : result (axes * list Q) :=
  if bins_ok bins
  then Ok (ax_draw ax (Hist x bins alpha label density), hist_edges x bins)
  else Raise (ValueError "bins must be positive, when an integer, and increase monotonically, when an array").

(** [KernelDensity(kernel='gaussian', bandwidth=bandwidth).fit(x)]: the fitted
    estimator, read as the density it gives on a grid; scikit-learn raises
    ValueError for a bandwidth that is not positive. *)
Definition kernel_density_fit (bandwidth : Q) (x : list Q) : result (list Q → list Q) :=
  if decide (0 < bandwidth)%Q then Ok (gaussian_kde bandwidth x)
  else Raise (ValueError "bandwidth must be positive").

Definition np_argsort (a : ndarray) : M (list nat) :=
  s ← load (nd_data a);
  mret (argsort s).

(** *** [plot_histogram_of_informativeness] (lines 35-83) *)

(** The loop of lines 58-60; [bins] is rebound by every iteration. *)
Fixpoint hist_loop (a : ndarray) (groups : list string) (density : bool)
    (different_groups : list string) (bins : bins_arg) (ax : axes) : M axes :=
  match different_groups with
  | [] => mret ax
  | g :: rest =>
      x ← np_getitem_mask a (np_equal_str groups g);
      '(ax, bins) ← lift (ax_hist ax x bins (1 # 2) g density);
      hist_loop a groups density rest (BinEdges bins) ax
  end.

(** The loop of lines 62-67. *)
Fixpoint kde_loop (a : ndarray) (groups : list string) (bandwidth : Q)
    (different_groups : list string) (ax : axes) : M axes :=
  match different_groups with
  | [] => mret ax
  | g :: rest =>
      scores ← np_getitem_mask a (np_equal_str groups g);
      kde ← lift (kernel_density_fit bandwidth scores);
      m ← np_max a;
      let xs := np_linspace 0 m 1000 in
      let prob_density := kde xs in
      kde_loop a groups bandwidth rest (ax_plot ax xs prob_density g)
  end.

Definition plot_histogram_of_informativeness (informativeness_scores : pyval)
    (groups : option (list string)) (bins : bins_arg) (plt : option pyplot)
    (save_name : option string) (density use_density_estimation : bool)
    (bandwidth : Q) : M (figure * axes) :=
  let plt := default (import_matplotlib true false) plt in
  informativeness_scores ← convert_scores_to_numpy informativeness_scores;
  let density := if use_density_estimation then true else density in
  let '(groups, with_groups) :=
    match groups with
    | None => (replicate (np_len informativeness_scores) "dummy", false)
    | Some groups => (groups, true)
    end in
  let different_groups := sorted_set_str groups in
  let '(fig, ax) := plt_subplots plt (7, 5) in
  ax ← (if negb use_density_estimation
        then hist_loop informativeness_scores groups density different_groups bins ax
        else kde_loop informativeness_scores groups bandwidth different_groups ax);
  let ax := ax_ticklabel_format_sci ax "x" in
  let ax := ax_set_xlabel ax "Informativeness of an example" in
  let ax := if density
            then ax_set_ylabel (ax_ticklabel_format_sci ax "y") "Density"
            else ax_set_ylabel ax "Count" in
  let ax := if with_groups then ax_add_legend ax else ax in
  let fig := fig_do_tight_layout (fig_with_axes fig [ax]) in
  let fig := if truthy save_name then savefig fig (default "" save_name) else fig in
  mret (fig, ax).

(** *** [plot_least_or_most_informative_examples] (lines 86-102) *)

Definition plot_least_or_most_informative_examples (data : dataset)
    (informativeness_scores : pyval) (plt : option pyplot)
    (save_name : option string) (least_informative : bool) (n_examples : Z)
    (kw : kwargs) : M (figure * axes) :=
  let plt := default (import_matplotlib true false) plt in
  informativeness_scores ← convert_scores_to_numpy informativeness_scores;
  order ← np_argsort informativeness_scores;
  let indices := if least_informative
                 then slice_to order n_examples
                 else slice_from order (- n_examples) in
  '(fig, ax) ← lift (plot_examples_from_dataset data indices 1 n_examples
                       save_name plt kw);
  mret (fig, ax).

(** *** [plot_summary_of_informativeness] (lines 105-176) *)

(** Lines 119-122: the class of every item; [torch.tensor(y)] keeps the
    target as it is. *)
Definition dataset_classes (data : dataset) (is_label_one_hot : bool) : result (list Z) :=
  let ys := snd <$> data in
  match (if is_label_one_hot then comprehension torch_argmax ys else Ok ys) with
  | Raise e => Raise e
  | Ok ys => comprehension tensor_item ys
  end.

(** Lines 128-130: [str(y)], or the name of the class when names are given. *)
Definition class_label (label_names : option (list string)) (y : Z) : result string :=
  match label_names with
  | None => Ok (pretty y)
  | Some names => py_getitem names y
  end.

(** The loop of lines 126-131: every class is binned on its own, with 30
    bins. *)
Fixpoint summary_hist_loop (a : ndarray) (ys : list Z) (label_names : option (list string))
    (set_ys : list Z) (ax_left : axes) : M axes :=
  match set_ys with
  | [] => mret ax_left
  | y :: rest =>
      let mask := np_equal ys y in
      label ← lift (class_label label_names y);
      x ← np_getitem_mask a mask;
      '(ax_left, _) ← lift (ax_hist ax_left x (BinCount 30) (3 # 5) label false);
      summary_hist_loop a ys label_names rest ax_left
  end.

(** The loops of lines 145-157 and 159-171: a row of ten images, [letter]
    set next to the first.  [utils.to_numpy] between the two nnlib calls
    keeps the pixel values. *)
Fixpoint image_row_loop (data : dataset) (indices : list nat) (row : Z * Z)
    (letter : string) (dy : Q) (range : list nat) (fig : figure) : result figure :=
  match range with
  | [] => Ok fig
  | i :: rest =>
      let sl := Slot row (3 + Z.of_nat i, 3 + Z.of_nat i + 1) in
      let ax := new_axes (Some sl) in
      let fig := if decide (i = 0%nat)
                 then fig_text fig (Text sl (- (5 # 100)) dy letter 28 "bold")
                 else fig in
      match py_getitem indices (Z.of_nat i) with
      | Raise e => Raise e
      | Ok idx =>
          match py_getitem data (Z.of_nat idx) with
          | Raise e => Raise e
          | Ok (x, y) =>
              let x := revert_normalization x data in
              let x := get_image x in
              let ax := ax_set_axis_off (ax_imshow ax x 0 1) in
              image_row_loop data indices row letter dy rest
                (fig_with_axes fig (fig_axes fig ++ [ax]))
          end
      end
  end.

Definition plot_summary_of_informativeness (data : dataset)
    (informativeness_scores : pyval) (label_names : option (list string))
    (save_name : option string) (plt : option pyplot) (is_label_one_hot : bool)
    : M (figure * option axes) :=
  let plt := default (import_matplotlib true false) plt in
  informativeness_scores ← convert_scores_to_numpy informativeness_scores;
  let fig := plt_figure plt true (24, 5) in
  let left := Slot (1, 22) (0, 3) in
  let ax_left := new_axes (Some left) in
  ys ← lift (dataset_classes data is_label_one_hot);
  let set_ys := sorted_set_int ys in
  ax_left ← summary_hist_loop informativeness_scores ys label_names set_ys ax_left;
  let ax_left := ax_add_legend ax_left in
  let ax_left := ax_ticklabel_format_sci ax_left "x" in
  let ax_left := ax_set_xlabel ax_left "Informativeness of an example" in
  let ax_left := ax_set_ylabel ax_left "Count" in
  let ax_left := ax_add_legend ax_left in
  let fig := fig_with_axes fig [ax_left] in
  let fig := fig_text fig (Text left (- (5 # 100)) (65 # 1000) "A" 28 "bold") in
  order ← np_argsort informativeness_scores;
  let least_informative := slice_to order 10 in
  let most_informative := slice_from order (-10) in
  fig ← lift (image_row_loop data least_informative (1, 11) "B" (65 # 1000)
                (seq 0 10) fig);
  fig ← lift (image_row_loop data most_informative (12, 22) "C" (42 # 1000)
                (seq 0 10) fig);
  let fig := match save_name with
             | Some name => savefig fig name
             | None => fig
             end in
  mret (fig, None).

(** *** What the plots are expected to draw *)

(** The picture shown for the dataset item at position [idx]. *)
Definition displayed (data : dataset) (idx : nat) : list Q :=
  get_image (revert_normalization (data !!! idx).1 data).

(** The axes of one image of the summary: column [3 + i] of the rows [row],
    showing the dataset item at [idx] with the axis switched off. *)
Definition image_axes (data : dataset) (row : Z * Z) (i idx : nat) : axes :=
  ax_set_axis_off
    (ax_imshow (new_axes (Some (Slot row (3 + Z.of_nat i, 3 + Z.of_nat i + 1))))
       (displayed data idx) 0 1).

(** The histograms of the summary: one per class, each with 30 bins. *)
Definition drawn_class_histograms (s : list Q) (ys : list Z) (labels : list string)
    : list artist :=
  zip_with (λ y label, Hist (compress (np_equal ys y) s) (BinCount 30) (3 # 5) label false)
    (sorted_set_int ys) labels.


(** The labels the plot loops over: the given ones, or one dummy label per
    score. *)
Definition plotted_labels (groups : option (list string)) (s : list Q) : list string :=
  default (replicate (length s) "dummy") groups.

(** One histogram per distinct label in sorted order; the first is binned by
    the [bins] argument, the others by the edges the first one returned. *)
Definition drawn_histograms (groups : list string) (s : list Q) (bins : bins_arg)
    (density : bool) : list artist :=
  match sorted_set_str groups with
  | [] => []
  | g :: rest =>
      let first := group_scores groups s g in
      Hist first bins (1 # 2) g density ::
      ((λ g', Hist (group_scores groups s g') (BinEdges (hist_edges first bins))
                (1 # 2) g' density) <$> rest)
  end.

(** One density curve per distinct label in sorted order, all over the grid
    from 0 to the largest of all scores. *)
Definition drawn_curves (groups : list string) (s : list Q) (bandwidth : Q) : list artist :=
  match amax s with
  | None => []
  | Some m =>
      let xs := np_linspace 0 m 1000 in
      (λ g, Line xs (gaussian_kde bandwidth (group_scores groups s g) xs) g)
        <$> sorted_set_str groups
  end.

(** The calls to matplotlib and scikit-learn the plot makes are accepted:
    the [bins] argument by the first histogram and the edges it returns by
    the later ones, or the bandwidth by the density estimator. *)
Definition hist_call_ok (labels : list string) (s : list Q) (bins : bins_arg) : bool :=
  match sorted_set_str labels with
  | [] => true
  | [g] => bins_ok bins
  | g :: _ => bins_ok bins && edges_increase (hist_edges (group_scores labels s g) bins)
  end.

Definition call_ok (use_density_estimation : bool) (labels : list string) (s : list Q)
    (bins : bins_arg) (bandwidth : Q) : bool :=
  if use_density_estimation
  then match sorted_set_str labels with
       | [] => true
       | _ => bool_decide (0 < bandwidth)%Q
       end
  else hist_call_ok labels s bins.

(** The same for a plot of one group only. *)
Definition single_call_ok (use_density_estimation : bool) (bins : bins_arg)
    (bandwidth : Q) : Prop :=
  if use_density_estimation then (0 < bandwidth)%Q else bins_ok bins = true.

(** The bin edges a histogram was drawn with. *)
Definition artist_edges (a : artist) : option (list Q) :=
  match a with
  | Hist x bins _ _ _ => Some (hist_edges x bins)
  | _ => None
  end.

(** ** The store is only read and extended *)

Lemma bind_ok {A B} (m : M A) (f : A → M B) h a h' :
  m h = (Ok a, h') → (m ≫= f) h = f a h'.
Proof. intros E. unfold mbind, M_bind. by rewrite E. Qed.

Lemma bind_raise {A B} (m : M A) (f : A → M B) h e h' :
  m h = (Raise e, h') → (m ≫= f) h = (Raise e, h').
Proof. intros E. unfold mbind, M_bind. by rewrite E. Qed.

Lemma alloc_fresh b (h : gmap nat (list Q)) :
  ∃ l, alloc b h = (Ok l, <[l := b]> h) ∧ h !! l = None.
Proof.
  exists (fresh (dom h)). split; [done|].
  apply not_elem_of_dom, is_fresh.
Qed.

Lemma load_ok l (h : gmap nat (list Q)) b : h !! l = Some b → load l h = (Ok b, h).
Proof. intros E. unfold load. by rewrite E. Qed.

Lemma extends_ret {A} (a : A) : extends (mret a).
Proof. by intros h. Qed.

Lemma extends_raise {A} e : extends (@raise A e).
Proof. by intros h. Qed.

Lemma extends_lift {A} (r : result A) : extends (lift r).
Proof. by intros h. Qed.

Lemma extends_load l : extends (load l).
Proof. intros h. unfold load. by destruct (h !! l). Qed.

Lemma extends_alloc b : extends (alloc b).
Proof.
  intros h. destruct (alloc_fresh b h) as (l & -> & Hl). simpl.
  by apply insert_subseteq.
Qed.

Lemma extends_bind {A B} (m : M A) (f : A → M B) :
  extends m → (∀ a, extends (f a)) → extends (m ≫= f).
Proof.
  intros Hm Hf h. unfold mbind, M_bind.
  specialize (Hm h). destruct (m h) as [[a|e] h1]; simpl in *; [|done].
  etrans; [exact Hm|]. apply Hf.
Qed.

Create HintDb frame.
#[local] Hint Resolve extends_ret extends_raise extends_lift extends_load
  extends_alloc : frame.

Ltac frame :=
  repeat first
    [ solve [eauto with frame]
    | apply extends_bind; [|intros ?]
    | match goal with
      | |- extends (match ?x with _ => _ end) => destruct x
      | |- extends (if ?b then _ else _) => destruct b
      | |- extends (let '(_, _) := ?p in _) => destruct p
      end ].

Lemma extends_tensor_flatten t : extends (tensor_flatten t).
Proof. unfold tensor_flatten. frame. Qed.

Lemma extends_to_numpy t : extends (to_numpy t).
Proof. unfold to_numpy. frame. Qed.

Lemma extends_ndarray_flatten a : extends (ndarray_flatten a).
Proof. unfold ndarray_flatten. frame. Qed.

Lemma extends_expect_tensors l : extends (expect_tensors l).
Proof. induction l as [|[] l IH]; simpl; frame. Qed.

Lemma extends_load_all ts : extends (load_all ts).
Proof. induction ts as [|t ts IH]; simpl; frame. Qed.

Lemma extends_torch_stack l : extends (torch_stack l).
Proof.
  unfold torch_stack. apply extends_bind; [apply extends_expect_tensors|].
  intros [|t0 ts]; [frame|].
  destruct (forallb _ _); [|frame].
  apply extends_bind; [apply extends_load_all|]. intros bs. frame.
Qed.

#[local] Hint Resolve extends_tensor_flatten extends_to_numpy
  extends_ndarray_flatten extends_torch_stack : frame.

Lemma extends_convert_scores_to_numpy scores : extends (convert_scores_to_numpy scores).
Proof.
  destruct scores as [| | | | t | a | [|x l]]; unfold convert_scores_to_numpy; frame.
Qed.

Lemma tensor_flatten_ok (h : gmap nat (list Q)) t b :
  valid_tensor h t b →
  ∃ t' h', tensor_flatten t h = (Ok t', h') ∧ h ⊆ h' ∧
           h' !! t_data t' = Some b ∧ t_shape t' = [length b] ∧
           (t_data t' = t_data t ∨ h !! t_data t' = None).
Proof.
  intros [Hb Hn]. unfold tensor_flatten. destruct (t_contiguous t).
  - eexists _, h. rewrite Hn. repeat split; [done..|by left].
  - erewrite bind_ok by by apply load_ok.
    destruct (alloc_fresh b h) as (l & Ha & Hl).
    erewrite bind_ok by exact Ha.
    eexists _, _. split; [done|]. simpl. rewrite Hn.
    repeat split;
      [by apply insert_subseteq | by rewrite lookup_insert_eq | by right].
Qed.

Lemma to_numpy_ok (h : gmap nat (list Q)) t b :
  h !! t_data t = Some b →
  ∃ a h', to_numpy t h = (Ok a, h') ∧ h ⊆ h' ∧
          h' !! nd_data a = Some b ∧ nd_shape a = t_shape t ∧
          (nd_data a = t_data t ∨ h !! nd_data a = None).
Proof.
  intros Hb. unfold to_numpy. destruct (t_device t).
  - eexists _, h. repeat split; [done..|by left].
  - erewrite bind_ok by by apply load_ok.
    destruct (alloc_fresh b h) as (l & Ha & Hl).
    erewrite bind_ok by exact Ha.
    eexists _, _. split; [done|]. simpl.
    repeat split;
      [by apply insert_subseteq | by rewrite lookup_insert_eq | by right].
Qed.

Lemma ndarray_flatten_ok (h : gmap nat (list Q)) a b :
  h !! nd_data a = Some b → length b = numel (nd_shape a) →
  ∃ a' h', ndarray_flatten a h = (Ok a', h') ∧ h ⊆ h' ∧
           h' !! nd_data a' = Some b ∧ nd_shape a' = [length b] ∧
           h !! nd_data a' = None.
Proof.
  intros Hb Hn. unfold ndarray_flatten.
  erewrite bind_ok by by apply load_ok.
  destruct (alloc_fresh b h) as (l & Ha & Hl).
  erewrite bind_ok by exact Ha.
  eexists _, _. split; [done|]. simpl. rewrite Hn.
  repeat split; [by apply insert_subseteq | by rewrite lookup_insert_eq | done].
Qed.

Lemma expect_tensors_ok ts (h : gmap nat (list Q)) :
  expect_tensors (PyTensor <$> ts) h = (Ok ts, h).
Proof.
  induction ts as [|t ts IH]; [done|]. simpl.
  by erewrite bind_ok by exact IH.
Qed.

Lemma load_all_ok (h : gmap nat (list Q)) ts bs :
  Forall2 (valid_tensor h) ts bs → load_all ts h = (Ok bs, h).
Proof.
  induction 1 as [|t b ts bs [Hb _] _ IH]; [done|]. simpl.
  erewrite bind_ok by by apply load_ok.
  by erewrite bind_ok by exact IH.
Qed.

Lemma stacked_length (h : gmap nat (list Q)) t0 ts bs :
  Forall (λ t, same_layout t0 t = true) ts →
  Forall2 (valid_tensor h) ts bs →
  length (concat bs) = (length ts * numel (t_shape t0))%nat.
Proof.
  intros Hl Hv. induction Hv as [|t b ts bs [_ Hn] _ IH]; [done|].
  apply Forall_cons in Hl as [Ht Hl]. simpl. rewrite length_app, IH by done.
  unfold same_layout in Ht. apply andb_prop in Ht as [Hs _].
  apply bool_decide_eq_true in Hs. by rewrite Hn, Hs.
Qed.

Lemma torch_stack_ok (h : gmap nat (list Q)) t0 ts bs :
  Forall (λ t, same_layout t0 t = true) (t0 :: ts) →
  Forall2 (valid_tensor h) (t0 :: ts) bs →
  ∃ t h', torch_stack (PyTensor <$> t0 :: ts) h = (Ok t, h') ∧ h ⊆ h' ∧
          valid_tensor h' t (concat bs) ∧ t_contiguous t = true ∧
          h !! t_data t = None.
Proof.
  intros Hl Hv. unfold torch_stack.
  erewrite bind_ok by apply expect_tensors_ok.
  cbv iota.
  assert (forallb (same_layout t0) (t0 :: ts) = true) as ->.
  { apply Is_true_eq_true, forallb_True.
    eapply Forall_impl; [exact Hl|]. by intros ? ->. } erewrite bind_ok by by apply load_all_ok.
  destruct (alloc_fresh (concat bs) h) as (l & Ha & Hfresh).
  erewrite bind_ok by exact Ha.
  eexists _, _. split; [done|]. simpl.
  split; [by apply insert_subseteq|]. split; [|done].
  split; simpl; [by rewrite lookup_insert_eq|].
  by erewrite (stacked_length h t0 (t0 :: ts)).
Qed.

Lemma lookup_None_subseteq (h h' : gmap nat (list Q)) l :
  h ⊆ h' → h' !! l = None → h !! l = None.
Proof.
  intros Hsub Hl. destruct (h !! l) as [b|] eqn:E; [|done].
  eapply lookup_weaken in E; [|exact Hsub]. congruence.
Qed.

(** A tensor is flattened and converted to an array over the same elements;
    the array lives in the tensor's buffer or in a new one. *)
Lemma flatten_to_numpy_ok (h : gmap nat (list Q)) t b :
  valid_tensor h t b →
  ∃ a h', (tensor_flatten t ≫= to_numpy) h = (Ok a, h') ∧ h ⊆ h' ∧
          h' !! nd_data a = Some b ∧ nd_shape a = [length b] ∧
          (nd_data a = t_data t ∨ h !! nd_data a = None).
Proof.
  intros Hv.
  destruct (tensor_flatten_ok h t b Hv) as (t' & h1 & E1 & S1 & L1 & Sh1 & F1).
  destruct (to_numpy_ok h1 t' b L1) as (a & h2 & E2 & S2 & L2 & Sh2 & F2).
  exists a, h2. erewrite bind_ok by exact E1.
  split; [done|]. split; [by etrans|]. split; [done|].
  split; [congruence|].
  destruct F2 as [->|F2]; [done|].
  right. by eapply lookup_None_subseteq.
Qed.

(** Every convertible input is converted to a one-dimensional array of its
    elements; the store is only extended. *)
Lemma convert_scores_ok (h : gmap nat (list Q)) scores s :
  convertible h scores s →
  ∃ a h', convert_scores_to_numpy scores h = (Ok a, h') ∧ h ⊆ h' ∧
          h' !! nd_data a = Some s ∧ nd_shape a = [length s].
Proof.
  destruct 1 as [a b Hb Hn | t b Hv | t0 ts bs Hl Hv].
  - destruct (ndarray_flatten_ok h a b Hb Hn) as (a' & h' & E & ? & ? & ? & _).
    by exists a', h'.
  - destruct (flatten_to_numpy_ok h t b Hv) as (a' & h' & E & ? & ? & ? & _).
    by exists a', h'.
  - destruct (torch_stack_ok h t0 ts bs Hl Hv) as (t & h1 & E1 & S1 & V1 & _ & _).
    destruct (flatten_to_numpy_ok h1 t _ V1) as (a' & h' & E & ? & ? & ? & _).
    exists a', h'. split; [|split; [by etrans|done]].
    change (PyTensor <$> t0 :: ts) with (PyTensor t0 :: (PyTensor <$> ts)).
    unfold convert_scores_to_numpy, isinstance_tensor.
    by erewrite bind_ok by exact E1.
Qed.

(** ** Masks, distinct labels and drawing *)

Lemma compress_scores_of_group groups s g :
  compress (np_equal groups g) s = scores_of_group groups s g.
Proof.
  unfold scores_of_group, np_equal.
  revert s. induction groups as [|x groups IH]; intros [|v s]; try done.
  simpl. rewrite filter_cons. simpl.
  case_bool_decide; case_decide; try done; simpl; by rewrite IH.
Qed.

Lemma compress_replicate_all {A} (x : string) (s : list A) :
  compress (np_equal (replicate (length s) x) x) s = s.
Proof.
  induction s as [|v s IH]; [done|].
  unfold np_equal in *. simpl.
  rewrite bool_decide_eq_true_2 by done. f_equal. exact IH.
Qed.

Lemma sorted_set_str_elem_of groups g : g ∈ sorted_set_str groups ↔ g ∈ groups.
Proof.
  unfold sorted_set_str. rewrite merge_sort_Permutation.
  by rewrite elem_of_elements, elem_of_list_to_set.
Qed.



Lemma sorted_set_str_replicate n x :
  sorted_set_str (replicate (S n) x) = [x].
Proof.
  unfold sorted_set_str.
  assert (list_to_set (replicate (S n) x) = ({[ x ]} : gset string)) as ->.
  { apply set_eq. intros y. rewrite elem_of_list_to_set, elem_of_replicate.
    rewrite elem_of_singleton. split; [by intros [-> _] | by intros ->]. }
  by rewrite elements_singleton.
Qed.


Lemma foldl_draw_artists ax arts :
  ax_artists (foldl ax_draw ax arts) = ax_artists ax ++ arts.
Proof.
  revert ax. induction arts as [|a arts IH]; intros ax; simpl.
  - by rewrite app_nil_r.
  - rewrite IH. simpl. by rewrite <- app_assoc.
Qed.

Lemma np_getitem_mask_ok (h : gmap nat (list Q)) a s mask :
  h !! nd_data a = Some s → length mask = length s →
  np_getitem_mask a mask h = (Ok (compress mask s), h).
Proof.
  intros Hs Hl. unfold np_getitem_mask.
  erewrite bind_ok by by apply load_ok.
  by rewrite decide_True.
Qed.

Lemma np_getitem_mask_mismatch (h : gmap nat (list Q)) a s mask :
  h !! nd_data a = Some s → length mask ≠ length s →
  np_getitem_mask a mask h = (Raise IndexError, h).
Proof.
  intros Hs Hl. unfold np_getitem_mask.
  erewrite bind_ok by by apply load_ok.
  by rewrite decide_False.
Qed.

Lemma np_equal_length `{EqDecision A} (groups : list A) g :
  length (np_equal groups g) = length groups.
Proof. unfold np_equal. by rewrite length_fmap. Qed.

Lemma np_max_ok (h : gmap nat (list Q)) a s m :
  h !! nd_data a = Some s → amax s = Some m → np_max a h = (Ok m, h).
Proof.
  intros Hs Hm. unfold np_max.
  erewrite bind_ok by by apply load_ok. by rewrite Hm.
Qed.

Lemma np_equal_str_length groups g :
  length (np_equal_str groups g) = length groups.
Proof. unfold np_equal_str. by rewrite length_fmap. Qed.

Lemma ax_hist_ok ax x bins alpha label density :
  bins_ok bins = true →
  ax_hist ax x bins alpha label density =
  Ok (ax_draw ax (Hist x bins alpha label density), hist_edges x bins).
Proof. intros Hb. unfold ax_hist. by rewrite Hb. Qed.

Lemma kernel_density_fit_ok bandwidth x :
  (0 < bandwidth)%Q →
  kernel_density_fit bandwidth x = Ok (gaussian_kde bandwidth x).
Proof. intros Hb. unfold kernel_density_fit. by rewrite decide_True. Qed.

(** The artists the two loops of [plot_histogram_of_informativeness] draw. *)
Lemma hist_loop_edges_ok (h : gmap nat (list Q)) a s groups density dg e ax :
  h !! nd_data a = Some s → length groups = length s →
  dg = [] ∨ edges_increase e = true →
  hist_loop a groups density dg (BinEdges e) ax h =
  (Ok (foldl ax_draw ax
         ((λ g, Hist (group_scores groups s g) (BinEdges e) (1 # 2) g density) <$> dg)),
   h).
Proof.
  intros Hs Hl He. revert ax. induction dg as [|g dg IH]; intros ax; [done|].
  destruct He as [?|He]; [done|].
  cbn [hist_loop]. erewrite bind_ok
    by (apply np_getitem_mask_ok; [done|by rewrite np_equal_str_length]).
  fold (group_scores groups s g).
  erewrite bind_ok by (unfold lift; by rewrite ax_hist_ok).
  cbn [hist_edges fmap list_fmap foldl]. apply IH. by right.
Qed.

Lemma hist_loop_ok (h : gmap nat (list Q)) a s groups density g dg bins ax :
  h !! nd_data a = Some s → length groups = length s →
  bins_ok bins = true →
  dg = [] ∨ edges_increase (hist_edges (group_scores groups s g) bins) = true →
  hist_loop a groups density (g :: dg) bins ax h =
  (Ok (foldl ax_draw ax
         (Hist (group_scores groups s g) bins (1 # 2) g density ::
          ((λ g', Hist (group_scores groups s g')
                    (BinEdges (hist_edges (group_scores groups s g) bins))
                    (1 # 2) g' density) <$> dg))),
   h).
Proof.
  intros Hs Hl Hb He. cbn [hist_loop]. erewrite bind_ok
    by (apply np_getitem_mask_ok; [done|by rewrite np_equal_str_length]).
  fold (group_scores groups s g).
  erewrite bind_ok by (unfold lift; by rewrite ax_hist_ok).
  cbn [foldl]. by apply hist_loop_edges_ok.
Qed.

Lemma kde_loop_ok (h : gmap nat (list Q)) a s m groups bandwidth dg ax :
  h !! nd_data a = Some s → length groups = length s → amax s = Some m →
  dg = [] ∨ (0 < bandwidth)%Q →
  kde_loop a groups bandwidth dg ax h =
  (Ok (foldl ax_draw ax
         ((λ g, Line (np_linspace 0 m 1000)
                  (gaussian_kde bandwidth (group_scores groups s g)
                     (np_linspace 0 m 1000)) g) <$> dg)),
   h).
Proof.
  intros Hs Hl Hm Hb. revert ax. induction dg as [|g dg IH]; intros ax; [done|].
  destruct Hb as [?|Hb]; [done|].
  cbn [kde_loop]. erewrite bind_ok
    by (apply np_getitem_mask_ok; [done|by rewrite np_equal_str_length]).
  fold (group_scores groups s g).
  erewrite bind_ok by (unfold lift; by rewrite kernel_density_fit_ok).
  erewrite bind_ok by by eapply np_max_ok.
  cbn [fmap list_fmap foldl]. apply IH. by right.
Qed.

Lemma sorted_set_str_nil : sorted_set_str [] = [].
Proof. unfold sorted_set_str. simpl. by rewrite elements_empty. Qed.

Lemma hist_loop_drawn (h : gmap nat (list Q)) a s groups density bins ax :
  h !! nd_data a = Some s → length groups = length s →
  hist_call_ok groups s bins = true →
  hist_loop a groups density (sorted_set_str groups) bins ax h =
  (Ok (foldl ax_draw ax (drawn_histograms groups s bins density)), h).
Proof.
  intros Hs Hl Hok. unfold drawn_histograms. unfold hist_call_ok in Hok.
  destruct (sorted_set_str groups) as [|g [|g2 rest]]; [done| |].
  - apply hist_loop_ok; [done..|by left].
  - apply andb_prop in Hok as [Hb He]. apply hist_loop_ok; [done..|by right].
Qed.

Lemma kde_loop_drawn (h : gmap nat (list Q)) a s groups bandwidth ax bins :
  h !! nd_data a = Some s → length groups = length s →
  call_ok true groups s bins bandwidth = true →
  kde_loop a groups bandwidth (sorted_set_str groups) ax h =
  (Ok (foldl ax_draw ax (drawn_curves groups s bandwidth)), h).
Proof.
  intros Hs Hl Hok. unfold drawn_curves. unfold call_ok in Hok.
  destruct (amax s) as [m|] eqn:Hm.
  - eapply kde_loop_ok; [done..|].
    destruct (sorted_set_str groups); [by left|right].
    by apply bool_decide_eq_true in Hok.
  - destruct s; [|done]. destruct groups; [|done].
    by rewrite sorted_set_str_nil.
Qed.

Lemma foldl_draw_legend ax arts :
  ax_legend (foldl ax_draw ax arts) = ax_legend ax.
Proof. revert ax. induction arts as [|a arts IH]; intros ax; [done|]. simpl. by rewrite IH. Qed.

(** The whole of [plot_histogram_of_informativeness] on a convertible input
    with labels that fit. *)
Lemma plot_histogram_returns (h : gmap nat (list Q)) scores s groups bins plt
    save_name density use_density_estimation bandwidth :
  convertible h scores s → groups_ok groups s →
  call_ok use_density_estimation (plotted_labels groups s) s bins bandwidth = true →
  ∃ fig ax h',
    plot_histogram_of_informativeness scores groups bins plt save_name density
      use_density_estimation bandwidth h = (Ok (fig, ax), h') ∧
    h ⊆ h' ∧
    ax_artists ax =
      (if use_density_estimation
       then drawn_curves (plotted_labels groups s) s bandwidth
       else drawn_histograms (plotted_labels groups s) s bins density) ∧
    ax_xlabel ax = Some "Informativeness of an example" ∧
    ax_ylabel ax =
      Some (if use_density_estimation || density then "Density" else "Count") ∧
    ax_legend ax = bool_decide (is_Some groups) ∧
    fig_axes fig = [ax] ∧
    fig_backend fig = default (import_matplotlib true false) plt ∧
    fig_figsize fig = (7, 5).
Proof.
  intros Hc Hg Hok.
  destruct (convert_scores_ok h scores s Hc) as (a & h' & E & Hsub & Hs & Hsh).
  unfold plot_histogram_of_informativeness.
  erewrite bind_ok by exact E.
  assert (np_len a = length s) as -> by (unfold np_len; by rewrite Hsh).
  assert (length (plotted_labels groups s) = length s) as Hl.
  { destruct groups; simpl in *; [done|by rewrite length_replicate]. }
  assert (∃ wg, (match groups with
                 | Some g => (g, true)
                 | None => (replicate (length s) "dummy", false)
                 end) = (plotted_labels groups s, wg) ∧
                wg = bool_decide (is_Some groups)) as (wg & -> & Hwg).
  { destruct groups; eexists; (split; [done|]); by simpl. }
  cbv beta iota zeta delta [plt_subplots].
  destruct use_density_estimation; cbn [negb orb].
  - erewrite bind_ok by by eapply kde_loop_drawn.
    eexists _, _, h'. split; [done|]. split; [done|].
    destruct wg, (truthy save_name); simpl;
      rewrite ?foldl_draw_artists, ?foldl_draw_legend; simpl; by repeat split.
  - erewrite bind_ok by by apply hist_loop_drawn.
    eexists _, _, h'. split; [done|]. split; [done|].
    destruct density, wg, (truthy save_name); simpl;
      rewrite ?foldl_draw_artists, ?foldl_draw_legend; simpl; by repeat split.
Qed.

(** ** Ranking *)

#[local] Instance score_le_trans s : Transitive (score_le s).
Proof. intros i j k. unfold score_le. apply Qle_trans. Qed.

#[local] Instance score_le_total s : Total (score_le s).
Proof.
  intros i j. unfold score_le.
  destruct (Qlt_le_dec (nth i s 0%Q) (nth j s 0%Q)) as [H|H]; [left|right]; [|done].
  by apply Qlt_le_weak.
Qed.

Lemma merge_argsort_is_argsort s : is_argsort s (merge_argsort s).
Proof.
  split; [apply merge_sort_Permutation|].
  apply Sorted_merge_sort. apply _.
Qed.

Lemma slice_to_take {A} (l : list A) (n : Z) :
  (0 ≤ n ≤ Z.of_nat (length l))%Z → slice_to l n = take (Z.to_nat n) l.
Proof.
  intros Hn. unfold slice_to, slice_bound.
  rewrite decide_False by lia. f_equal. lia.
Qed.

Lemma slice_from_drop {A} (l : list A) (n : Z) :
  (0 < n ≤ Z.of_nat (length l))%Z →
  slice_from l (- n) = drop (length l - Z.to_nat n) l.
Proof.
  intros Hn. unfold slice_from, slice_bound.
  rewrite decide_True by lia. f_equal. lia.
Qed.

Lemma is_argsort_length s order : is_argsort s order → length order = length s.
Proof. intros [Hp _]. by rewrite Hp, length_seq. Qed.

Lemma is_argsort_elem_of s order i :
  is_argsort s order → i ∈ order ↔ (i < length s)%nat.
Proof. intros [Hp _]. rewrite Hp, elem_of_seq. lia. Qed.

Lemma is_argsort_split s order k :
  is_argsort s order →
  NoDup (take k order ++ drop k order) ∧
  StronglySorted (score_le s) (take k order ++ drop k order).
Proof.
  intros [Hp Hs]. rewrite take_drop. split.
  - rewrite Hp. apply NoDup_seq.
  - apply Sorted_StronglySorted; [apply score_le_trans|done].
Qed.

Lemma argsort_lowest s order k :
  is_argsort s order → (k ≤ length s)%nat → lowest_ranked s k (take k order).
Proof.
  intros Ha Hk. destruct (is_argsort_split s order k Ha) as [Hnd Hss].
  apply NoDup_app in Hnd as (Hnd1 & Hdisj & Hnd2).
  repeat split.
  - rewrite length_take, (is_argsort_length s order Ha). lia.
  - done.
  - apply StronglySorted_Sorted. by eapply StronglySorted_app_1_l.
  - intros i Hi. apply (is_argsort_elem_of s order i Ha).
    rewrite <- (take_drop k order). apply elem_of_app. by left.
  - intros i j Hi Hj Hnj.
    eapply StronglySorted_app_1_elem_of; [exact Hss|exact Hi|].
    apply (is_argsort_elem_of s order j Ha) in Hj.
    rewrite <- (take_drop k order) in Hj.
    apply elem_of_app in Hj as [Hj|Hj]; done.
Qed.

Lemma argsort_highest s order k :
  is_argsort s order → (k ≤ length s)%nat →
  highest_ranked s k (drop (length s - k) order).
Proof.
  intros Ha Hk.
  destruct (is_argsort_split s order (length s - k) Ha) as [Hnd Hss].
  apply NoDup_app in Hnd as (Hnd1 & Hdisj & Hnd2).
  repeat split.
  - rewrite length_drop, (is_argsort_length s order Ha). lia.
  - done.
  - apply StronglySorted_Sorted. by eapply StronglySorted_app_1_r.
  - intros i Hi. apply (is_argsort_elem_of s order i Ha).
    rewrite <- (take_drop (length s - k) order). apply elem_of_app. by right.
  - intros i j Hi Hj Hnj.
    eapply StronglySorted_app_1_elem_of; [exact Hss| |exact Hi].
    apply (is_argsort_elem_of s order j Ha) in Hj.
    rewrite <- (take_drop (length s - k) order) in Hj.
    apply elem_of_app in Hj as [Hj|Hj]; done.
Qed.

(** ** The example plots *)

Lemma np_argsort_ok (h : gmap nat (list Q)) a s :
  h !! nd_data a = Some s → np_argsort a h = (Ok (argsort s), h).
Proof.
  intros Hs. unfold np_argsort. by erewrite bind_ok by by apply load_ok.
Qed.

(** [plot_least_or_most_informative_examples] returns what the display helper
    returns for the slice of the ranking. *)
Lemma plot_least_or_most_returns (h : gmap nat (list Q)) data scores s plt
    save_name least_informative n_examples kw :
  convertible h scores s →
  ∃ h',
    plot_least_or_most_informative_examples data scores plt save_name
      least_informative n_examples kw h =
    (plot_examples_from_dataset data
       (if least_informative then slice_to (argsort s) n_examples
        else slice_from (argsort s) (- n_examples))
       1 n_examples save_name (default (import_matplotlib true false) plt) kw,
     h') ∧
    h ⊆ h'.
Proof.
  intros Hc.
  destruct (convert_scores_ok h scores s Hc) as (a & h' & E & Hsub & Hs & Hsh).
  exists h'. split; [|done].
  unfold plot_least_or_most_informative_examples.
  erewrite bind_ok by exact E.
  erewrite bind_ok by by apply np_argsort_ok.
  unfold mbind, M_bind, lift.
  by destruct (plot_examples_from_dataset _ _ _ _ _ _ _) as [[fig ax]|e].
Qed.

Lemma py_getitem_ok {A} (l : list A) (i : nat) x :
  l !! i = Some x → py_getitem l (Z.of_nat i) = Ok x.
Proof.
  intros Hx. unfold py_getitem. cbv zeta.
  repeat case_decide; try lia.
  by rewrite Nat2Z.id, Hx.
Qed.

Lemma comprehension_length {A B} (f : A → result B) l ys :
  comprehension f l = Ok ys → length ys = length l.
Proof.
  revert ys. induction l as [|x l IH]; intros ys; simpl.
  - by intros [= <-].
  - destruct (f x); [|done]. destruct (comprehension f l); [|done].
    intros [= <-]. simpl. by rewrite (IH _ eq_refl).
Qed.

Lemma dataset_classes_length data is_label_one_hot ys :
  dataset_classes data is_label_one_hot = Ok ys → length ys = length data.
Proof.
  unfold dataset_classes. destruct is_label_one_hot.
  - destruct (comprehension torch_argmax _) as [zs|] eqn:E; [|done].
    intros H. apply comprehension_length in H, E.
    by rewrite H, E, length_fmap.
  - intros H. apply comprehension_length in H. by rewrite H, length_fmap.
Qed.

Lemma summary_hist_loop_ok (h : gmap nat (list Q)) a s ys label_names set_ys labels ax :
  h !! nd_data a = Some s → length ys = length s →
  comprehension (class_label label_names) set_ys = Ok labels →
  summary_hist_loop a ys label_names set_ys ax h =
  (Ok (foldl ax_draw ax
         (zip_with (λ y label, Hist (compress (np_equal ys y) s) (BinCount 30)
                                 (3 # 5) label false) set_ys labels)),
   h).
Proof.
  intros Hs Hl. revert labels ax.
  induction set_ys as [|y set_ys IH]; intros labels ax;
    cbn [comprehension summary_hist_loop].
  - by intros [= <-].
  - destruct (class_label label_names y) as [label|] eqn:El; [|done].
    destruct (comprehension _ set_ys) as [ls|] eqn:Ec; [|done].
    intros [= <-].
    erewrite bind_ok by done.
    erewrite bind_ok
      by (apply np_getitem_mask_ok; [done|by rewrite np_equal_length]).
    cbn [ax_hist zip_with foldl]. by apply IH.
Qed.

Lemma fig_images_with_axes fig axs ax :
  fig_axes fig = axs →
  fig_images (fig_with_axes fig (axs ++ [ax])) =
  fig_images fig ++ (ax_artists ax ≫= artist_image).
Proof.
  intros <-. unfold fig_images. simpl. rewrite bind_app. simpl.
  by rewrite app_nil_r.
Qed.

(** A row of images: one picture per position of the range. *)
Lemma image_row_loop_ok data indices row letter dy m :
  ∀ k fig,
    (k + m ≤ length indices)%nat →
    Forall (λ idx, (idx < length data)%nat) indices →
    ∃ fig',
      image_row_loop data indices row letter dy (seq k m) fig = Ok fig' ∧
      fig_images fig' = fig_images fig ++ (displayed data <$> take m (drop k indices)) ∧
      fig_backend fig' = fig_backend fig ∧ fig_figsize fig' = fig_figsize fig ∧
      fig_constrained_layout fig' = fig_constrained_layout fig ∧
      fig_saved fig' = fig_saved fig.
Proof.
  induction m as [|m IH]; intros k fig Hk Hdata.
  - exists fig. simpl. by rewrite app_nil_r.
  - destruct (lookup_lt_is_Some_2 indices k) as [idx Hidx]; [lia|].
    assert (idx < length data)%nat as Hlt.
    { eapply Forall_forall in Hdata; [exact Hdata|]. by eapply list_elem_of_lookup_2. }
    destruct (lookup_lt_is_Some_2 data idx Hlt) as [[x y] Hxy].
    cbn [seq image_row_loop].
    rewrite (py_getitem_ok indices k idx Hidx).
    rewrite (py_getitem_ok data idx (x, y) Hxy).
    edestruct (IH (S k)) as (fig' & E & Him & Hb & Hf & Hc & Hsv);
      [lia|exact Hdata|].
    exists fig'. split; [exact E|].
    rewrite Him, Hb, Hf, Hc, Hsv.
    rewrite (drop_S indices idx k Hidx). cbn [take fmap list_fmap].
    rewrite (fig_images_with_axes _ _ _ eq_refl).
    unfold displayed. rewrite (list_lookup_total_correct data idx (x, y) Hxy).
    case_decide; simpl; by rewrite <- app_assoc.
Qed.

Lemma foldl_draw_images ax arts :
  ax_artists (foldl ax_draw ax arts) ≫= artist_image =
  (ax_artists ax ≫= artist_image) ++ (arts ≫= artist_image).
Proof. by rewrite foldl_draw_artists, bind_app. Qed.

Lemma zip_with_hist_images {A B} (f : A → B → artist) xs ys :
  (∀ x y, artist_image (f x y) = []) → zip_with f xs ys ≫= artist_image = [].
Proof.
  intros Hf. revert ys. induction xs as [|x xs IH]; intros [|y ys]; try done.
  cbn [zip_with]. rewrite bind_cons, Hf. by apply IH.
Qed.

Lemma fig_images_savefig fig name : fig_images (savefig fig name) = fig_images fig.
Proof. unfold fig_images. by cbn [savefig fig_axes]. Qed.

(** The whole of [plot_summary_of_informativeness] when there are at least
    ten scores, one dataset item per score, and a label for every class. *)
Lemma plot_summary_returns (h : gmap nat (list Q)) data scores s label_names
    save_name plt is_label_one_hot ys labels :
  convertible h scores s →
  is_argsort s (argsort s) →
  dataset_classes data is_label_one_hot = Ok ys →
  comprehension (class_label label_names) (sorted_set_int ys) = Ok labels →
  length data = length s →
  (10 ≤ length s)%nat →
  ∃ fig h',
    plot_summary_of_informativeness data scores label_names save_name plt
      is_label_one_hot h = (Ok (fig, None), h') ∧
    h ⊆ h' ∧
    fig_images fig =
      (displayed data <$> take 10 (argsort s)) ++
      (displayed data <$> drop (length s - 10) (argsort s)) ∧
    fig_backend fig = default (import_matplotlib true false) plt ∧
    fig_figsize fig = (24, 5) ∧
    fig_constrained_layout fig = true.
Proof.
  intros Hc Ha Hys Hlabels Hdata Hten.
  destruct (convert_scores_ok h scores s Hc) as (a & h' & E & Hsub & Hs & Hsh).
  pose proof (is_argsort_length s _ Ha) as Hlen.
  assert (Forall (λ idx, (idx < length data)%nat) (argsort s)) as Hidx.
  { apply Forall_forall. intros i Hi. rewrite Hdata.
    by apply (is_argsort_elem_of s (argsort s) i Ha). }
  unfold plot_summary_of_informativeness.
  erewrite bind_ok by exact E.
  erewrite bind_ok by (unfold lift; by rewrite Hys).
  erewrite bind_ok.
  2:{ apply summary_hist_loop_ok; [exact Hs| |exact Hlabels].
      rewrite <- Hdata. by eapply dataset_classes_length. }
  erewrite bind_ok by by apply np_argsort_ok.
  rewrite slice_to_take by lia.
  rewrite (slice_from_drop (argsort s) 10 ltac:(lia)
           : slice_from (argsort s) (-10) = _).
  rewrite Hlen. change (Z.to_nat 10) with 10%nat.
  set (least := take 10 (argsort s)). set (most := drop (length s - 10) (argsort s)).
  set (fig0 := fig_text _ _).
  assert (fig_images fig0 = []) as Him0.
  { unfold fig0, fig_images. cbn [fig_axes fig_text fig_with_axes].
    rewrite bind_cons. change (@nil axes ≫= _) with (@nil (list Q)).
    rewrite app_nil_r. cbn [ax_artists ax_add_legend
      ax_set_ylabel ax_set_xlabel ax_ticklabel_format_sci].
    rewrite foldl_draw_images. simpl. by apply zip_with_hist_images. }
  destruct (image_row_loop_ok data least (1, 11) "B" (65 # 1000)%Q 10 0 fig0)
    as (fig1 & E1 & Him1 & Hb1 & Hf1 & Hc1 & _).
  { unfold least. rewrite length_take. lia. }
  { unfold least. by apply Forall_take. }
  destruct (image_row_loop_ok data most (12, 22) "C" (42 # 1000)%Q 10 0 fig1)
    as (fig2 & E2 & Him2 & Hb2 & Hf2 & Hc2 & _).
  { unfold most. rewrite length_drop. lia. }
  { unfold most. by apply Forall_drop. }
  erewrite bind_ok by (unfold lift; by rewrite E1).
  erewrite bind_ok by (unfold lift; by rewrite E2).
  assert (take 10 (drop 0 least) = least) as Hl.
  { rewrite drop_0. apply take_ge. unfold least. rewrite length_take. lia. }
  assert (take 10 (drop 0 most) = most) as Hm.
  { rewrite drop_0. apply take_ge. unfold most. rewrite length_drop. lia. }
  rewrite Hl in Him1. rewrite Hm in Him2. rewrite Him1, Him0 in Him2.
  eexists _, h'. split; [done|]. split; [done|].
  destruct save_name as [name|];
    rewrite ?fig_images_savefig; cbn [savefig fig_backend fig_figsize
      fig_constrained_layout];
    rewrite Him2, Hb2, Hf2, Hc2, Hb1, Hf1, Hc1; by repeat split.
Qed.

(** ** No plotting step writes to the store *)

Lemma extends_np_getitem_mask a mask : extends (np_getitem_mask a mask).
Proof. unfold np_getitem_mask. frame. Qed.

Lemma extends_np_max a : extends (np_max a).
Proof. unfold np_max. frame. Qed.

Lemma extends_np_argsort a : extends (np_argsort a).
Proof. unfold np_argsort. frame. Qed.

#[local] Hint Resolve extends_np_getitem_mask extends_np_max extends_np_argsort
  extends_convert_scores_to_numpy : frame.

Lemma extends_hist_loop a groups density dg :
  ∀ bins ax, extends (hist_loop a groups density dg bins ax).
Proof.
  induction dg as [|g dg IH]; intros bins ax; cbn [hist_loop]; [frame|].
  apply extends_bind; [frame|]. intros x.
  apply extends_bind; [frame|]. intros [ax' e]. apply IH.
Qed.

Lemma extends_kde_loop a groups bandwidth dg :
  ∀ ax, extends (kde_loop a groups bandwidth dg ax).
Proof.
  induction dg as [|g dg IH]; intros ax; cbn [kde_loop]; [frame|].
  apply extends_bind; [frame|]. intros x.
  apply extends_bind; [frame|]. intros kde.
  apply extends_bind; [frame|]. intros m. apply IH.
Qed.

Lemma extends_summary_hist_loop a ys label_names set_ys :
  ∀ ax, extends (summary_hist_loop a ys label_names set_ys ax).
Proof.
  induction set_ys as [|y set_ys IH]; intros ax; cbn [summary_hist_loop]; [frame|].
  apply extends_bind; [frame|]. intros label.
  apply extends_bind; [frame|]. intros x.
  apply extends_bind; [frame|]. intros [ax' e]. apply IH.
Qed.

Lemma extends_plot_histogram scores groups bins plt save_name density
    use_density_estimation bandwidth :
  extends (plot_histogram_of_informativeness scores groups bins plt save_name
             density use_density_estimation bandwidth).
Proof.
  unfold plot_histogram_of_informativeness.
  apply extends_bind; [frame|]. intros a.
  destruct groups as [groups|]; cbv beta iota zeta delta [plt_subplots];
    (apply extends_bind; [|intros ax; frame]);
    destruct use_density_estimation; cbn [negb];
    auto using extends_hist_loop, extends_kde_loop.
Qed.

Lemma extends_plot_least_or_most data scores plt save_name least_informative
    n_examples kw :
  extends (plot_least_or_most_informative_examples data scores plt save_name
             least_informative n_examples kw).
Proof.
  unfold plot_least_or_most_informative_examples.
  apply extends_bind; [frame|]. intros a.
  apply extends_bind; [frame|]. intros order.
  apply extends_bind; [frame|]. intros [fig ax]. frame.
Qed.

Lemma extends_plot_summary data scores label_names save_name plt is_label_one_hot :
  extends (plot_summary_of_informativeness data scores label_names save_name plt
             is_label_one_hot).
Proof.
  unfold plot_summary_of_informativeness.
  apply extends_bind; [frame|]. intros a.
  apply extends_bind; [frame|]. intros ys.
  apply extends_bind; [apply extends_summary_hist_loop|]. intros ax.
  apply extends_bind; [frame|]. intros order.
  apply extends_bind; [frame|]. intros fig1.
  apply extends_bind; [frame|]. intros fig2. frame.
Qed.

(** ** The claims about [convert_scores_to_numpy] *)

Lemma convert_scores_fresh_ok (h : gmap nat (list Q)) scores s :
  convertible h scores s → isinstance_tensor scores = false →
  ∃ a h', convert_scores_to_numpy scores h = (Ok a, h') ∧ h !! nd_data a = None.
Proof.
  destruct 1 as [a b Hb Hn | t b Hv | t0 ts bs Hl Hv]; intros Hnt; [|done|].
  - destruct (ndarray_flatten_ok h a b Hb Hn) as (a' & h' & E & _ & _ & _ & F).
    by exists a', h'.
  - destruct (torch_stack_ok h t0 ts bs Hl Hv) as (t & h1 & E1 & S1 & V1 & _ & F1).
    destruct (flatten_to_numpy_ok h1 t _ V1) as (a' & h' & E & _ & _ & _ & F).
    exists a', h'. split.
    + change (PyTensor <$> t0 :: ts) with (PyTensor t0 :: (PyTensor <$> ts)).
      unfold convert_scores_to_numpy, isinstance_tensor.
      by erewrite bind_ok by exact E1.
    + destruct F as [->|F]; [done|]. by eapply lookup_None_subseteq.
Qed.

Lemma convert_scores_ok_inv (h h' : gmap nat (list Q)) scores a :
  convert_scores_to_numpy scores h = (Ok a, h') → accepted_form scores = true.
Proof.
  destruct scores as [| | | | t | a0 | [|x l]]; try done.
  unfold convert_scores_to_numpy, accepted_form.
  by destruct (isinstance_tensor x).
Qed.

(** C4, as amended: a numpy array, a torch tensor, and a non-empty list of
    tensors of one shape and device are converted to a one-dimensional array
    holding all their elements in order, and a successful conversion means
    the input had one of the three forms; an input that is no list, tensor or
    array, or a list whose first element is no tensor, raises ValueError. *)
Theorem convert_scores_to_numpy_cases :
  ∀ (h : gmap nat (list Q)) (scores : pyval),
    (∀ s, convertible h scores s →
          ∃ a h', convert_scores_to_numpy scores h = (Ok a, h') ∧
                  nd_shape a = [length s] ∧ h' !! nd_data a = Some s) ∧
    (∀ a h', convert_scores_to_numpy scores h = (Ok a, h') →
             accepted_form scores = true) ∧
    (unsupported scores = true →
     convert_scores_to_numpy scores h =
     (Raise (ValueError "Cannot convert scores to a numpy array."), h)).
Proof.
  intros h scores. split; [|split].
  - intros s Hc.
    destruct (convert_scores_ok h scores s Hc) as (a & h' & E & _ & Hs & Hsh).
    by exists a, h'.
  - intros a h'. apply convert_scores_ok_inv.
  - destruct scores as [| | | | t | a0 | [|x l]]; try done.
    unfold unsupported, convert_scores_to_numpy.
    by destruct (isinstance_tensor x).
Qed.

(** C10: the empty list fails at [scores[0]], with IndexError, before the
    line that raises ValueError is reached. *)
Theorem convert_scores_empty_list_raises_index_error :
  ∀ h : gmap nat (list Q),
    convert_scores_to_numpy (PyList []) h = (Raise IndexError, h) ∧
    (∀ msg, IndexError ≠ ValueError msg) ∧
    unsupported (PyList []) = false.
Proof.
  intros h. split; [reflexivity|].
  split; [intros msg; discriminate|reflexivity].
Qed.

(** C9, as amended: no plotting call and no conversion changes a buffer that
    existed before it, so the scores read afterwards are the scores passed
    in; the converted array lives in a new buffer when the input is a numpy
    array or a list of tensors. *)
Theorem plotting_leaves_scores_unchanged :
  ∀ (h : gmap nat (list Q)) (scores : pyval),
    (∀ l b, h !! l = Some b →
       (convert_scores_to_numpy scores h).2 !! l = Some b ∧
       (∀ groups bins plt save_name density use_density_estimation bandwidth,
          (plot_histogram_of_informativeness scores groups bins plt save_name
             density use_density_estimation bandwidth h).2 !! l = Some b) ∧
       (∀ data plt save_name least_informative n_examples kw,
          (plot_least_or_most_informative_examples data scores plt save_name
             least_informative n_examples kw h).2 !! l = Some b) ∧
       (∀ data label_names save_name plt is_label_one_hot,
          (plot_summary_of_informativeness data scores label_names save_name plt
             is_label_one_hot h).2 !! l = Some b)) ∧
    (∀ s, convertible h scores s → isinstance_tensor scores = false →
          ∃ a h', convert_scores_to_numpy scores h = (Ok a, h') ∧
                  h !! nd_data a = None).
Proof.
  intros h scores. split.
  - intros l b Hl. repeat split; intros; eapply lookup_weaken; try exact Hl.
    + apply extends_convert_scores_to_numpy.
    + apply extends_plot_histogram.
    + apply extends_plot_least_or_most.
    + apply extends_plot_summary.
  - apply convert_scores_fresh_ok.
Qed.

(** ** The grid of the density curves *)


Lemma foldl_Qmax_le (x : Q) s : (x <= foldl Qmax x s)%Q.
Proof.
  revert x. induction s as [|y s IH]; intros x; simpl; [apply Qle_refl|].
  eapply Qle_trans; [apply Q.le_max_l|apply IH].
Qed.







(** ** The claims about [plot_histogram_of_informativeness] *)

Lemma plotted_labels_length groups s :
  groups_ok groups s → length (plotted_labels groups s) = length s.
Proof. destruct groups; simpl; [done|]. by rewrite length_replicate. Qed.

Lemma amax_None_no_labels labels s :
  length labels = length s → amax s = None → sorted_set_str labels = [].
Proof.
  intros Hl Hm. destruct s; [|done]. destruct labels; [|done].
  apply sorted_set_str_nil.
Qed.

Lemma sorted_set_str_cons groups :
  groups ≠ [] → ∃ g rest, sorted_set_str groups = g :: rest.
Proof.
  destruct groups as [|x groups]; [done|]. intros _.
  assert (x ∈ sorted_set_str (x :: groups)) as Hx
    by (apply sorted_set_str_elem_of; left).
  destruct (sorted_set_str (x :: groups)) as [|g rest]; [|by eauto].
  by apply elem_of_nil in Hx.
Qed.

Lemma group_scores_nul_free groups s g :
  Forall nul_free groups → nul_free g →
  group_scores groups s g = scores_of_group groups s g.
Proof.
  intros Hgs Hg. unfold group_scores, scores_of_group, np_equal_str.
  unfold nul_free in Hg. rewrite Hg.
  revert s. induction Hgs as [|x groups Hx _ IH]; intros [|v s]; try done.
  unfold nul_free in Hx. simpl. rewrite filter_cons. simpl. rewrite Hx.
  case_bool_decide; case_decide; try done; simpl; by rewrite IH.
Qed.

Lemma sorted_set_str_nul_free groups :
  Forall nul_free groups → Forall nul_free (sorted_set_str groups).
Proof.
  intros Hgs. apply Forall_forall. intros g Hg.
  apply (proj1 (sorted_set_str_elem_of groups g)) in Hg.
  rewrite Forall_forall in Hgs. by apply Hgs.
Qed.

(** The drawn artists in terms of exact label equality, for labels numpy
    reads back unchanged. *)
Lemma drawn_histograms_exact groups s bins density g rest :
  Forall nul_free groups → sorted_set_str groups = g :: rest →
  drawn_histograms groups s bins density =
  Hist (scores_of_group groups s g) bins (1 # 2) g density ::
  ((λ g', Hist (scores_of_group groups s g')
            (BinEdges (hist_edges (scores_of_group groups s g) bins))
            (1 # 2) g' density) <$> rest).
Proof.
  intros Hgs Hdg. pose proof (sorted_set_str_nul_free groups Hgs) as Hnf.
  unfold drawn_histograms. rewrite Hdg in *. cbv zeta.
  apply Forall_cons in Hnf as [Hg Hrest].
  rewrite (group_scores_nul_free groups s g Hgs Hg). f_equal.
  apply Forall_fmap_ext. eapply Forall_impl; [exact Hrest|].
  intros g' Hg'. simpl. by rewrite (group_scores_nul_free groups s g' Hgs Hg').
Qed.




(** C5, as amended: without density estimation, for labels without trailing
    NUL characters and a [bins] argument numpy accepts, the first group in
    sorted order is binned by the [bins] argument and every later group by
    the edges that first histogram returned, so all histograms have the same
    bin edges. *)
Theorem histograms_share_first_edges :
  ∀ (h : gmap nat (list Q)) scores s groups bins plt save_name density bandwidth
    g1 rest,
    convertible h scores s →
    length groups = length s →
    Forall nul_free groups →
    sorted_set_str groups = g1 :: rest →
    hist_call_ok groups s bins = true →
    ∃ fig ax h',
      plot_histogram_of_informativeness scores (Some groups) bins plt save_name
        density false bandwidth h = (Ok (fig, ax), h') ∧
      ax_artists ax =
        Hist (scores_of_group groups s g1) bins (1 # 2) g1 density ::
        ((λ g, Hist (scores_of_group groups s g)
                 (BinEdges (hist_edges (scores_of_group groups s g1) bins))
                 (1 # 2) g density) <$> rest) ∧
      Forall (λ art, artist_edges art =
                     Some (hist_edges (scores_of_group groups s g1) bins))
        (ax_artists ax).
Proof.
  intros h scores s groups bins plt save_name density bandwidth g1 rest
    Hc Hl Hnf Hdg Hok.
  destruct (plot_histogram_returns h scores s (Some groups) bins plt save_name
              density false bandwidth Hc Hl Hok)
    as (fig & ax & h' & E & _ & Harts & _).
  exists fig, ax, h'. split; [exact E|].
  change (plotted_labels (Some groups) s) with groups in Harts.
  rewrite (drawn_histograms_exact groups s bins density g1 rest Hnf Hdg) in Harts.
  rewrite Harts. split; [reflexivity|].
  constructor; [reflexivity|].
  apply Forall_fmap, Forall_forall. by intros g _.
Qed.







Lemma group_scores_dummy (s : list Q) :
  group_scores (replicate (length s) "dummy") s "dummy" = s.
Proof.
  unfold group_scores, np_equal_str. induction s as [|v s IH]; [done|].
  cbn [length replicate fmap list_fmap compress].
  rewrite bool_decide_eq_true_2 by done. f_equal. exact IH.
Qed.

Lemma call_ok_dummy (use_density_estimation : bool) (s : list Q) bins bandwidth m :
  amax s = Some m →
  single_call_ok use_density_estimation bins bandwidth →
  call_ok use_density_estimation (replicate (length s) "dummy") s bins bandwidth
  = true.
Proof.
  intros Hm Hok. destruct s as [|x s']; [done|].
  unfold call_ok, hist_call_ok.
  change (length (x :: s')) with (S (length s')).
  rewrite sorted_set_str_replicate.
  destruct use_density_estimation; unfold single_call_ok in Hok;
    [by apply bool_decide_eq_true|done].
Qed.

(** C7, as amended: without groups, with at least one score and arguments the
    libraries accept, the whole score array is drawn as one histogram, or
    one density curve, and no legend is added; for an empty score array
    nothing is drawn and no legend is added; with groups, one label per
    score, a legend is added. *)
Theorem no_groups_single_plot :
  ∀ (h : gmap nat (list Q)) scores s bins plt save_name density
    use_density_estimation bandwidth,
    convertible h scores s →
    (∀ m, amax s = Some m →
       single_call_ok use_density_estimation bins bandwidth →
       ∃ fig ax h',
         plot_histogram_of_informativeness scores None bins plt save_name density
           use_density_estimation bandwidth h = (Ok (fig, ax), h') ∧
         ax_legend ax = false ∧
         ax_artists ax =
           if use_density_estimation
           then [Line (np_linspace 0 m 1000)
                   (gaussian_kde bandwidth s (np_linspace 0 m 1000)) "dummy"]
           else [Hist s bins (1 # 2) "dummy" density]) ∧
    (amax s = None →
     ∃ fig ax h',
       plot_histogram_of_informativeness scores None bins plt save_name density
         use_density_estimation bandwidth h = (Ok (fig, ax), h') ∧
       ax_legend ax = false ∧ ax_artists ax = []) ∧
    (∀ groups, length groups = length s →
       call_ok use_density_estimation groups s bins bandwidth = true →
       ∃ fig ax h',
         plot_histogram_of_informativeness scores (Some groups) bins plt save_name
           density use_density_estimation bandwidth h = (Ok (fig, ax), h') ∧
         ax_legend ax = true).
Proof.
  intros h scores s bins plt save_name density ude bandwidth Hc.
  split; [|split].
  - intros m Hm Hok.
    destruct (plot_histogram_returns h scores s None bins plt save_name
                density ude bandwidth Hc I (call_ok_dummy ude s bins bandwidth m Hm Hok))
      as (fig & ax & h' & E & _ & Harts & _ & _ & Hleg & _).
    exists fig, ax, h'. split; [exact E|]. split; [exact Hleg|].
    rewrite Harts.
    change (plotted_labels None s) with (replicate (length s) "dummy").
    unfold drawn_curves, drawn_histograms. rewrite Hm.
    destruct s as [|x s']; [done|].
    change (length (x :: s')) with (S (length s')).
    rewrite sorted_set_str_replicate.
    change (S (length s')) with (length (x :: s')).
    cbv zeta. cbn [fmap list_fmap]. rewrite group_scores_dummy.
    by destruct ude.
  - intros Hm. destruct s as [|x s']; [|done].
    assert (call_ok ude (plotted_labels None []) [] bins bandwidth = true) as Hok.
    { change (plotted_labels None []) with (@nil string).
      unfold call_ok, hist_call_ok.
      rewrite sorted_set_str_nil. by destruct ude. }
    destruct (plot_histogram_returns h scores [] None bins plt save_name
                density ude bandwidth Hc I Hok)
      as (fig & ax & h' & E & _ & Harts & _ & _ & Hleg & _).
    exists fig, ax, h'. split; [exact E|]. split; [exact Hleg|].
    rewrite Harts. change (plotted_labels None []) with (@nil string).
    unfold drawn_curves, drawn_histograms.
    rewrite sorted_set_str_nil. by destruct ude.
  - intros groups Hl Hok.
    destruct (plot_histogram_returns h scores s (Some groups) bins plt save_name
                density ude bandwidth Hc Hl Hok)
      as (fig & ax & h' & E & _ & _ & _ & _ & Hleg & _).
    by exists fig, ax, h'.
Qed.

(** ** What the plotting functions return *)

Lemma bind_inv {A B} (m : M A) (f : A → M B) (h h' : gmap nat (list Q)) r :
  (m ≫= f) h = (Ok r, h') → ∃ a h1, m h = (Ok a, h1) ∧ f a h1 = (Ok r, h').
Proof.
  unfold mbind, M_bind. destruct (m h) as [[a|e] h1]; [|done].
  intros E. by exists a, h1.
Qed.

Lemma lift_inv {A} (r : result A) (h h' : gmap nat (list Q)) a :
  lift r h = (Ok a, h') → r = Ok a.
Proof. unfold lift. intros E. by injection E. Qed.



(** ** The claim about the ranking *)

(** C1, as amended: when there are at least [n_examples] scores and
    [n_examples] is positive, the indices handed to the display helper are
    exactly [n_examples] positions in ascending order of score, the lowest
    ranked when [least_informative] is set and the highest ranked otherwise;
    with at least ten scores the summary shows the ten lowest ranked items
    and then the ten highest ranked ones. *)
Theorem ranked_examples_selected :
  ∀ (h : gmap nat (list Q)) scores s,
    convertible h scores s →
    is_argsort s (argsort s) →
    (∀ data plt save_name least_informative n_examples kw,
       (0 < n_examples ≤ Z.of_nat (length s))%Z →
       ∃ indices h',
         plot_least_or_most_informative_examples data scores plt save_name
           least_informative n_examples kw h =
         (plot_examples_from_dataset data indices 1 n_examples save_name
            (default (import_matplotlib true false) plt) kw, h') ∧
         if least_informative
         then lowest_ranked s (Z.to_nat n_examples) indices
         else highest_ranked s (Z.to_nat n_examples) indices) ∧
    (∀ data label_names save_name plt is_label_one_hot ys labels,
       dataset_classes data is_label_one_hot = Ok ys →
       comprehension (class_label label_names) (sorted_set_int ys) = Ok labels →
       length data = length s →
       (10 ≤ length s)%nat →
       ∃ fig h' least most,
         plot_summary_of_informativeness data scores label_names save_name plt
           is_label_one_hot h = (Ok (fig, None), h') ∧
         lowest_ranked s 10 least ∧ highest_ranked s 10 most ∧
         fig_images fig = (displayed data <$> least) ++ (displayed data <$> most)).
Proof.
  intros h scores s Hc Ha. split.
  - intros data plt save_name least n kw Hn.
    destruct (plot_least_or_most_returns h data scores s plt save_name least n kw Hc)
      as (h' & E & _).
    pose proof (is_argsort_length s _ Ha) as Hlen.
    eexists _, h'. split; [exact E|]. destruct least.
    + rewrite slice_to_take by lia. apply argsort_lowest; [done|lia].
    + rewrite slice_from_drop by lia. rewrite Hlen.
      apply argsort_highest; [done|lia].
  - intros data label_names save_name plt one_hot ys labels Hys Hlabels Hdata Hten.
    destruct (plot_summary_returns h data scores s label_names save_name plt
                one_hot ys labels Hc Ha Hys Hlabels Hdata Hten)
      as (fig & h' & E & _ & Him & _).
    exists fig, h', (take 10 (argsort s)), (drop (length s - 10) (argsort s)).
    split; [exact E|].
    split; [by apply argsort_lowest|].
    split; [by apply argsort_highest|exact Him].
Qed.


(** ** Further properties of [convert_scores_to_numpy] *)

Lemma bind_raise_inv {A B} (m : M A) (f : A → M B) (h h' : gmap nat (list Q)) e :
  (m ≫= f) h = (Raise e, h') →
  m h = (Raise e, h') ∨ ∃ a h1, m h = (Ok a, h1) ∧ f a h1 = (Raise e, h').
Proof.
  unfold mbind, M_bind. destruct (m h) as [[a|e0] h1]; intros E.
  - right. by exists a, h1.
  - left. by injection E as -> ->.
Qed.

Lemma no_value_error_ret {A} (a : A) : no_value_error (mret a).
Proof. by intros h e h' E. Qed.

Lemma no_value_error_load l : no_value_error (load l).
Proof.
  intros h e h' E msg. unfold load in E.
  destruct (h !! l); [done|]. by injection E as <- _.
Qed.

Lemma no_value_error_alloc b : no_value_error (alloc b).
Proof. by intros h e h' E. Qed.

Lemma no_value_error_bind {A B} (m : M A) (f : A → M B) :
  no_value_error m → (∀ a, no_value_error (f a)) → no_value_error (m ≫= f).
Proof.
  intros Hm Hf h e h' E.
  apply bind_raise_inv in E as [E|(a & h1 & _ & E)]; [by eapply Hm|by eapply Hf].
Qed.

Lemma no_value_error_raise {A} e :
  (∀ msg, e ≠ ValueError msg) → no_value_error (@raise A e).
Proof. intros He h e' h' E. by injection E as <- _. Qed.

Ltac no_value_error :=
  repeat first
    [ apply no_value_error_ret | apply no_value_error_load
    | apply no_value_error_alloc
    | apply no_value_error_raise; by intros
    | apply no_value_error_bind; [|intros ?]
    | match goal with
      | |- no_value_error (match ?x with _ => _ end) => destruct x
      | |- no_value_error (if ?b then _ else _) => destruct b
      end ].

Lemma no_value_error_tensor_flatten t : no_value_error (tensor_flatten t).
Proof. unfold tensor_flatten. no_value_error. Qed.

Lemma no_value_error_to_numpy t : no_value_error (to_numpy t).
Proof. unfold to_numpy. no_value_error. Qed.

Lemma no_value_error_ndarray_flatten a : no_value_error (ndarray_flatten a).
Proof. unfold ndarray_flatten. no_value_error. Qed.

Lemma no_value_error_expect_tensors l : no_value_error (expect_tensors l).
Proof.
  induction l as [|v l IH]; cbn [expect_tensors]; [no_value_error|].
  destruct v; try (apply no_value_error_raise; by intros).
  apply no_value_error_bind; [exact IH|]. intros ts. no_value_error.
Qed.

Lemma no_value_error_load_all ts : no_value_error (load_all ts).
Proof.
  induction ts as [|t ts IH]; cbn [load_all]; [no_value_error|].
  apply no_value_error_bind; [no_value_error|]. intros b.
  apply no_value_error_bind; [exact IH|]. intros bs. no_value_error.
Qed.

Lemma no_value_error_torch_stack l : no_value_error (torch_stack l).
Proof.
  unfold torch_stack.
  apply no_value_error_bind; [apply no_value_error_expect_tensors|].
  intros [|t0 ts]; [no_value_error|].
  destruct (forallb _ _); [|no_value_error].
  apply no_value_error_bind; [apply no_value_error_load_all|].
  intros bs. no_value_error.
Qed.

Lemma no_value_error_contra {A} (m : M A) (h h' : gmap nat (list Q)) msg :
  no_value_error m → m h = (Raise (ValueError msg), h') → False.
Proof. intros Hm E. by eapply (Hm h _ h' E msg). Qed.

(** X1: ValueError is the answer to exactly the unsupported inputs: whatever
    has one of the three accepted forms fails, if it fails, with an error of
    torch or of the store, never with the module's own ValueError. *)
Theorem convert_scores_value_error_iff :
  ∀ (h : gmap nat (list Q)) (scores : pyval),
    (∃ msg h', convert_scores_to_numpy scores h = (Raise (ValueError msg), h')) ↔
    unsupported scores = true.
Proof.
  intros h scores. split.
  - intros (msg & h' & E).
    destruct scores as [| | | | t | a | [|x l]]; try done.
    + exfalso. eapply no_value_error_contra; [|exact E].
      apply no_value_error_bind;
        [apply no_value_error_tensor_flatten|intros; apply no_value_error_to_numpy].
    + exfalso. eapply no_value_error_contra; [|exact E].
      apply no_value_error_ndarray_flatten.
    + unfold convert_scores_to_numpy in E. unfold unsupported.
      destruct (isinstance_tensor x); [|done]. exfalso.
      eapply no_value_error_contra; [|exact E].
      apply no_value_error_bind; [apply no_value_error_torch_stack|].
      intros t. apply no_value_error_bind;
        [apply no_value_error_tensor_flatten|intros; apply no_value_error_to_numpy].
  - intros Hu. eexists _, h.
    destruct scores as [| | | | t | a | [|x l]]; try done.
    unfold unsupported in Hu. unfold convert_scores_to_numpy.
    by destruct (isinstance_tensor x).
Qed.

(** X2: an error of the conversion leaves each of the three plotting
    functions as it is, with the store the conversion left: no figure is
    started before the scores are converted. *)
Theorem conversion_error_propagates :
  ∀ (h h' : gmap nat (list Q)) scores e,
    convert_scores_to_numpy scores h = (Raise e, h') →
    (∀ groups bins plt save_name density use_density_estimation bandwidth,
       plot_histogram_of_informativeness scores groups bins plt save_name density
         use_density_estimation bandwidth h = (Raise e, h')) ∧
    (∀ data plt save_name least_informative n_examples kw,
       plot_least_or_most_informative_examples data scores plt save_name
         least_informative n_examples kw h = (Raise e, h')) ∧
    (∀ data label_names save_name plt is_label_one_hot,
       plot_summary_of_informativeness data scores label_names save_name plt
         is_label_one_hot h = (Raise e, h')).
Proof.
  intros h h' scores e E. split; [|split]; intros.
  - unfold plot_histogram_of_informativeness. by apply bind_raise.
  - unfold plot_least_or_most_informative_examples. by apply bind_raise.
  - unfold plot_summary_of_informativeness. by apply bind_raise.
Qed.

(** X3: converting a converted array again gives an array of the same shape
    and elements in yet another buffer, and leaves the first one as it was. *)
Theorem convert_scores_twice :
  ∀ (h h1 : gmap nat (list Q)) scores s a,
    convertible h scores s →
    convert_scores_to_numpy scores h = (Ok a, h1) →
    ∃ a' h2,
      convert_scores_to_numpy (PyNdarray a) h1 = (Ok a', h2) ∧
      nd_shape a' = nd_shape a ∧
      h2 !! nd_data a' = Some s ∧ h2 !! nd_data a = Some s ∧
      nd_data a' ≠ nd_data a.
Proof.
  intros h h1 scores s a Hc E.
  destruct (convert_scores_ok h scores s Hc) as (a0 & h0 & E0 & _ & Hs & Hsh).
  rewrite E in E0. injection E0 as <- <-.
  assert (length s = numel (nd_shape a)) as Hn.
  { rewrite Hsh. simpl. lia. }
  destruct (ndarray_flatten_ok h1 a s Hs Hn) as (a' & h2 & E2 & Hsub & Hs' & Hsh' & Hf).
  exists a', h2. split; [exact E2|]. split; [congruence|].
  split; [exact Hs'|]. split; [by eapply lookup_weaken|].
  intros Heq. rewrite Heq in Hf. congruence.
Qed.

(** ** Further properties of [plot_histogram_of_informativeness] *)

Lemma foldl_draw_fields ax arts :
  ax_xlabel (foldl ax_draw ax arts) = ax_xlabel ax ∧
  ax_ylabel (foldl ax_draw ax arts) = ax_ylabel ax ∧
  ax_sci (foldl ax_draw ax arts) = ax_sci ax ∧
  ax_slot (foldl ax_draw ax arts) = ax_slot ax ∧
  ax_axis_off (foldl ax_draw ax arts) = ax_axis_off ax.
Proof.
  revert ax. induction arts as [|a arts IH]; intros ax; [done|].
  simpl. by destruct (IH (ax_draw ax a)) as (-> & -> & -> & -> & ->).
Qed.

(** The decoration of the histogram plot: tick formats, tight layout and
    saving. *)
Lemma plot_histogram_decoration (h : gmap nat (list Q)) scores s groups bins plt
    save_name density use_density_estimation bandwidth :
  convertible h scores s → groups_ok groups s →
  call_ok use_density_estimation (plotted_labels groups s) s bins bandwidth = true →
  ∃ fig ax h',
    plot_histogram_of_informativeness scores groups bins plt save_name density
      use_density_estimation bandwidth h = (Ok (fig, ax), h') ∧
    ax_sci ax = (if use_density_estimation || density then ["x"; "y"] else ["x"]) ∧
    ax_axis_off ax = false ∧
    fig_tight_layout fig = true ∧
    fig_saved fig = (if truthy save_name then [default "" save_name] else []) ∧
    fig_texts fig = [].
Proof.
  intros Hc Hg Hok.
  destruct (convert_scores_ok h scores s Hc) as (a & h' & E & Hsub & Hs & Hsh).
  unfold plot_histogram_of_informativeness.
  erewrite bind_ok by exact E.
  assert (np_len a = length s) as -> by (unfold np_len; by rewrite Hsh).
  assert (length (plotted_labels groups s) = length s) as Hl
    by by apply plotted_labels_length.
  assert (∃ wg, (match groups with
                 | Some g => (g, true)
                 | None => (replicate (length s) "dummy", false)
                 end) = (plotted_labels groups s, wg)) as (wg & ->).
  { destruct groups; by eexists. }
  cbv beta iota zeta delta [plt_subplots].
  destruct use_density_estimation; cbn [negb orb].
  - erewrite bind_ok by by eapply kde_loop_drawn.
    eexists _, _, h'. split; [done|].
    destruct (foldl_draw_fields (new_axes None)
                (drawn_curves (plotted_labels groups s) s bandwidth))
      as (_ & _ & Hsci & _ & Hoff).
    destruct wg, (truthy save_name); simpl; rewrite ?Hsci, ?Hoff; by repeat split.
  - erewrite bind_ok by by apply hist_loop_drawn.
    eexists _, _, h'. split; [done|].
    destruct (foldl_draw_fields (new_axes None)
                (drawn_histograms (plotted_labels groups s) s bins density))
      as (_ & _ & Hsci & _ & Hoff).
    destruct density, wg, (truthy save_name); simpl; rewrite ?Hsci, ?Hoff;
      by repeat split.
Qed.

(** X4: when the plot returns, that is for arguments the libraries accept,
    the x axis is labelled and given scientific tick labels; the
    y axis is labelled Density and given scientific tick labels when
    [density] or [use_density_estimation] is set, and labelled Count, with
    plain tick labels, otherwise. *)
Theorem histogram_axes_labelled :
  ∀ (h : gmap nat (list Q)) scores s groups bins plt save_name density
    use_density_estimation bandwidth,
    convertible h scores s →
    groups_ok groups s →
    call_ok use_density_estimation (plotted_labels groups s) s bins bandwidth = true →
    ∃ fig ax h',
      plot_histogram_of_informativeness scores groups bins plt save_name density
        use_density_estimation bandwidth h = (Ok (fig, ax), h') ∧
      ax_xlabel ax = Some "Informativeness of an example" ∧
      if use_density_estimation || density
      then ax_ylabel ax = Some "Density" ∧ ax_sci ax = ["x"; "y"]
      else ax_ylabel ax = Some "Count" ∧ ax_sci ax = ["x"].
Proof.
  intros h scores s groups bins plt save_name density ude bandwidth Hc Hg Hok.
  destruct (plot_histogram_returns h scores s groups bins plt save_name
              density ude bandwidth Hc Hg Hok)
    as (fig & ax & h' & E & _ & _ & Hx & Hy & _).
  destruct (plot_histogram_decoration h scores s groups bins plt save_name
              density ude bandwidth Hc Hg Hok)
    as (fig2 & ax2 & h2 & E2 & Hsci & _).
  rewrite E in E2. injection E2 as <- <- <-.
  exists fig, ax, h'. split; [exact E|]. split; [exact Hx|].
  by destruct (ude || density).
Qed.

(** X5: an empty score array is plotted without error in both modes: no
    label is looped over, so [np.max] is never asked for the maximum of an
    empty array, and the axes come back with no artist. *)
Theorem empty_scores_draw_nothing :
  ∀ (h : gmap nat (list Q)) scores groups bins plt save_name density
    use_density_estimation bandwidth,
    convertible h scores [] →
    groups_ok groups [] →
    ∃ fig ax h',
      plot_histogram_of_informativeness scores groups bins plt save_name density
        use_density_estimation bandwidth h = (Ok (fig, ax), h') ∧
      ax_artists ax = [] ∧ fig_axes fig = [ax].
Proof.
  intros h scores groups bins plt save_name density ude bandwidth Hc Hg.
  assert (plotted_labels groups [] = []) as Hnil.
  { destruct groups as [[|g groups]|]; done. }
  assert (call_ok ude (plotted_labels groups []) [] bins bandwidth = true) as Hok.
  { rewrite Hnil. unfold call_ok, hist_call_ok.
    rewrite sorted_set_str_nil. by destruct ude. }
  destruct (plot_histogram_returns h scores [] groups bins plt save_name
              density ude bandwidth Hc Hg Hok)
    as (fig & ax & h' & E & _ & Harts & _ & _ & _ & Hax & _).
  exists fig, ax, h'. split; [exact E|]. split; [|exact Hax].
  rewrite Harts, Hnil.
  unfold drawn_curves, drawn_histograms. rewrite sorted_set_str_nil.
  by destruct ude.
Qed.


(** X6: labels that are not one per score: a non-empty list stops the plot at
    the first group with numpy's IndexError, in both modes; an empty list
    with scores present gives a plot with a legend and nothing drawn. *)
Theorem mismatched_groups :
  ∀ (h : gmap nat (list Q)) scores s groups bins plt save_name density
    use_density_estimation bandwidth,
    convertible h scores s →
    length groups ≠ length s →
    (groups ≠ [] →
     ∃ h', plot_histogram_of_informativeness scores (Some groups) bins plt
             save_name density use_density_estimation bandwidth h =
           (Raise IndexError, h')) ∧
    (groups = [] →
     ∃ fig ax h', plot_histogram_of_informativeness scores (Some groups) bins plt
                    save_name density use_density_estimation bandwidth h =
                  (Ok (fig, ax), h') ∧
                  ax_artists ax = [] ∧ ax_legend ax = true).
Proof.
  intros h scores s groups bins plt save_name density ude bandwidth Hc Hl.
  destruct (convert_scores_ok h scores s Hc) as (a & h' & E & Hsub & Hs & Hsh).
  split.
  - intros Hne. destruct (sorted_set_str_cons groups Hne) as (g & rest & Hdg).
    exists h'. unfold plot_histogram_of_informativeness.
    erewrite bind_ok by exact E.
    cbv beta iota zeta delta [plt_subplots]. rewrite Hdg.
    apply bind_raise.
    destruct ude; cbn [negb hist_loop kde_loop]; apply bind_raise;
      apply (np_getitem_mask_mismatch h' a s); try done;
      by rewrite np_equal_str_length.
  - intros ->. unfold plot_histogram_of_informativeness.
    erewrite bind_ok by exact E.
    cbv beta iota zeta delta [plt_subplots]. rewrite sorted_set_str_nil.
    destruct ude, density, (truthy save_name); cbn [negb hist_loop kde_loop];
      (erewrite bind_ok by reflexivity); eexists _, _, h';
      (split; [reflexivity|]); by split.
Qed.

(** ** Saving *)

Lemma image_row_loop_saved data indices row letter dy range :
  ∀ fig fig',
    image_row_loop data indices row letter dy range fig = Ok fig' →
    fig_saved fig' = fig_saved fig.
Proof.
  induction range as [|i range IH]; intros fig fig'; cbn [image_row_loop].
  - by intros [= <-].
  - destruct (py_getitem indices _) as [idx|]; [|done].
    destruct (py_getitem data _) as [[x y]|]; [|done].
    intros E. apply IH in E as ->. by case_decide.
Qed.

(** X7: when it returns, that is for arguments the libraries accept, the
    histogram plot writes the figure to [save_name] unless the name is
    absent or the empty string ([if save_name:]); the summary writes it
    whenever a name is given, the empty string included
    ([if save_name is not None:]).  Nothing else is written. *)
Theorem figures_saved_when_named :
  ∀ (h : gmap nat (list Q)) scores s,
    convertible h scores s →
    (∀ groups bins plt save_name density use_density_estimation bandwidth,
       groups_ok groups s →
       call_ok use_density_estimation (plotted_labels groups s) s bins bandwidth
       = true →
       ∃ fig ax h',
         plot_histogram_of_informativeness scores groups bins plt save_name
           density use_density_estimation bandwidth h = (Ok (fig, ax), h') ∧
         fig_saved fig =
           match save_name with
           | Some name => if decide (name = "") then [] else [name]
           | None => []
           end) ∧
    (∀ data label_names save_name plt is_label_one_hot r h',
       plot_summary_of_informativeness data scores label_names save_name plt
         is_label_one_hot h = (Ok r, h') →
       fig_saved r.1 =
         match save_name with
         | Some name => [name]
         | None => []
         end).
Proof.
  intros h scores s Hc. split.
  - intros groups bins plt save_name density ude bandwidth Hg Hok.
    destruct (plot_histogram_decoration h scores s groups bins plt save_name
                density ude bandwidth Hc Hg Hok)
      as (fig & ax & h' & E & _ & _ & _ & Hsaved & _).
    exists fig, ax, h'. split; [exact E|]. rewrite Hsaved.
    destruct save_name as [name|]; [|done]. unfold truthy.
    by case_bool_decide; case_decide.
  - intros data label_names save_name plt one_hot r h' E.
    unfold plot_summary_of_informativeness in E.
    apply bind_inv in E as (a & h1 & _ & E).
    apply bind_inv in E as (ys & h2 & _ & E).
    apply bind_inv in E as (ax & h3 & _ & E).
    apply bind_inv in E as (order & h4 & _ & E).
    apply bind_inv in E as (fig1 & h5 & E1 & E).
    apply bind_inv in E as (fig2 & h6 & E2 & E).
    injection E as <- _.
    apply lift_inv in E1. apply lift_inv in E2.
    apply image_row_loop_saved in E1, E2.
    destruct save_name as [name|]; cbn [fst savefig fig_saved];
      by rewrite E2, E1.
Qed.

(** ** Further properties of the example plots *)

(** X8: the slices of the ranking clamp as Python slices do.  Asking for at
    least as many examples as there are scores hands the whole ranking to the
    display helper on either side; asking for none hands over no index on
    the least-informative side and, [order[-0:]] being the whole array, the
    whole ranking on the most-informative side.  The helper is still told
    [n_examples] columns. *)
Theorem example_slices_clamp :
  ∀ (h : gmap nat (list Q)) data scores s plt save_name kw,
    convertible h scores s →
    length (argsort s) = length s →
    (∀ least_informative n_examples,
       (0 < n_examples)%Z → (Z.of_nat (length s) ≤ n_examples)%Z →
       ∃ h',
         plot_least_or_most_informative_examples data scores plt save_name
           least_informative n_examples kw h =
         (plot_examples_from_dataset data (argsort s) 1 n_examples save_name
            (default (import_matplotlib true false) plt) kw, h')) ∧
    (∃ h',
       plot_least_or_most_informative_examples data scores plt save_name
         true 0 kw h =
       (plot_examples_from_dataset data [] 1 0 save_name
          (default (import_matplotlib true false) plt) kw, h')) ∧
    (∃ h',
       plot_least_or_most_informative_examples data scores plt save_name
         false 0 kw h =
       (plot_examples_from_dataset data (argsort s) 1 0 save_name
          (default (import_matplotlib true false) plt) kw, h')).
Proof.
  intros h data scores s plt save_name kw Hc Hlen. split; [|split].
  - intros least n Hpos Hn.
    destruct (plot_least_or_most_returns h data scores s plt save_name least n kw Hc)
      as (h' & E & _).
    exists h'. rewrite E.
    assert ((if least then slice_to (argsort s) n else slice_from (argsort s) (- n))
            = argsort s) as ->; [|done].
    destruct least.
    + unfold slice_to, slice_bound. rewrite decide_False by lia.
      apply take_ge. lia.
    + unfold slice_from, slice_bound. rewrite decide_True by lia.
      replace (Z.to_nat _) with 0%nat by lia. apply drop_0.
  - destruct (plot_least_or_most_returns h data scores s plt save_name true 0 kw Hc)
      as (h' & E & _).
    exists h'. rewrite E.
    assert (slice_to (argsort s) 0 = []) as ->; [|done].
    unfold slice_to, slice_bound. rewrite decide_False by lia.
    replace (Z.to_nat _) with 0%nat by lia. apply take_0.
  - destruct (plot_least_or_most_returns h data scores s plt save_name false 0 kw Hc)
      as (h' & E & _).
    exists h'. rewrite E.
    assert (slice_from (argsort s) (- 0) = argsort s) as ->; [|done].
    unfold slice_from, slice_bound. rewrite decide_False by lia.
    replace (Z.to_nat _) with 0%nat by lia. apply drop_0.
Qed.

(** ** Further properties of [plot_summary_of_informativeness] *)

Lemma py_getitem_raises {A} (l : list A) i e : py_getitem l i = Raise e → e = IndexError.
Proof.
  unfold py_getitem. cbv zeta. case_decide; [by intros [= <-]|].
  destruct (l !! _); [done|]. by intros [= <-].
Qed.

Lemma py_getitem_none {A} (l : list A) (i : nat) :
  l !! i = None → py_getitem l (Z.of_nat i) = Raise IndexError.
Proof.
  intros Hx. unfold py_getitem. cbv zeta.
  repeat case_decide; try lia. by rewrite Nat2Z.id, Hx.
Qed.

(** A row of images over fewer indices than positions stops with IndexError. *)
Lemma image_row_loop_short data indices row letter dy m :
  ∀ k fig,
    (k ≤ length indices)%nat → (length indices < k + m)%nat →
    Forall (λ idx, (idx < length data)%nat) indices →
    image_row_loop data indices row letter dy (seq k m) fig = Raise IndexError.
Proof.
  induction m as [|m IH]; intros k fig Hk Hm Hdata; [lia|].
  cbn [seq image_row_loop].
  destruct (indices !! k) as [idx|] eqn:Hidx.
  - assert (idx < length data)%nat as Hlt.
    { eapply Forall_forall in Hdata; [exact Hdata|]. by eapply list_elem_of_lookup_2. }
    destruct (lookup_lt_is_Some_2 data idx Hlt) as [[x y] Hxy].
    rewrite (py_getitem_ok indices k idx Hidx).
    rewrite (py_getitem_ok data idx (x, y) Hxy).
    apply lookup_lt_Some in Hidx. apply IH; [lia|lia|done].
  - by rewrite (py_getitem_none indices k Hidx).
Qed.

(** X9: with fewer than ten scores the summary raises IndexError: the slices
    of the ranking are then shorter than the ten positions each row of
    images reads. *)
Theorem summary_needs_ten_scores :
  ∀ (h : gmap nat (list Q)) data scores s label_names save_name plt
    is_label_one_hot ys labels,
    convertible h scores s →
    is_argsort s (argsort s) →
    dataset_classes data is_label_one_hot = Ok ys →
    comprehension (class_label label_names) (sorted_set_int ys) = Ok labels →
    length data = length s →
    (length s < 10)%nat →
    ∃ h',
      plot_summary_of_informativeness data scores label_names save_name plt
        is_label_one_hot h = (Raise IndexError, h').
Proof.
  intros h data scores s label_names save_name plt one_hot ys labels
    Hc Ha Hys Hlabels Hdata Hfew.
  destruct (convert_scores_ok h scores s Hc) as (a & h' & E & Hsub & Hs & Hsh).
  pose proof (is_argsort_length s _ Ha) as Hlen.
  assert (Forall (λ idx, (idx < length data)%nat) (argsort s)) as Hidx.
  { apply Forall_forall. intros i Hi. rewrite Hdata.
    by apply (is_argsort_elem_of s (argsort s) i Ha). }
  exists h'. unfold plot_summary_of_informativeness.
  erewrite bind_ok by exact E.
  erewrite bind_ok by (unfold lift; by rewrite Hys).
  erewrite bind_ok.
  2:{ apply summary_hist_loop_ok; [exact Hs| |exact Hlabels].
      rewrite <- Hdata. by eapply dataset_classes_length. }
  erewrite bind_ok by by apply np_argsort_ok.
  assert (slice_to (argsort s) 10 = argsort s) as ->.
  { unfold slice_to, slice_bound. rewrite decide_False by lia.
    apply take_ge. lia. }
  apply bind_raise. unfold lift. f_equal.
  apply image_row_loop_short; [lia|lia|done].
Qed.

Lemma sorted_set_int_cons ys :
  ys ≠ [] → ∃ y rest, sorted_set_int ys = y :: rest.
Proof.
  destruct ys as [|x ys]; [done|]. intros _.
  assert (x ∈ sorted_set_int (x :: ys)) as Hx.
  { unfold sorted_set_int. rewrite merge_sort_Permutation.
    rewrite elem_of_elements, elem_of_list_to_set. left. }
  destruct (sorted_set_int (x :: ys)) as [|y rest]; [|by eauto].
  by apply elem_of_nil in Hx.
Qed.

Lemma sorted_set_int_nil : sorted_set_int [] = [].
Proof. unfold sorted_set_int. simpl. by rewrite elements_empty. Qed.

Lemma image_row_loop_no_data indices row letter dy i rest fig :
  image_row_loop [] indices row letter dy (i :: rest) fig = Raise IndexError.
Proof.
  cbn [image_row_loop].
  destruct (py_getitem indices _) as [idx|e] eqn:Ei.
  - by rewrite (py_getitem_none [] idx).
  - by rewrite (py_getitem_raises _ _ _ Ei).
Qed.

(** X10: a dataset that has not one item per score makes the summary raise
    IndexError: at the first class histogram when the dataset is not empty
    (the mask has another length than the scores), at the first image
    otherwise. *)
Theorem summary_needs_item_per_score :
  ∀ (h : gmap nat (list Q)) data scores s label_names save_name plt
    is_label_one_hot ys,
    convertible h scores s →
    dataset_classes data is_label_one_hot = Ok ys →
    length data ≠ length s →
    ∃ h',
      plot_summary_of_informativeness data scores label_names save_name plt
        is_label_one_hot h = (Raise IndexError, h').
Proof.
  intros h data scores s label_names save_name plt one_hot ys Hc Hys Hne.
  destruct (convert_scores_ok h scores s Hc) as (a & h' & E & Hsub & Hs & Hsh).
  pose proof (dataset_classes_length _ _ _ Hys) as Hlen.
  exists h'. unfold plot_summary_of_informativeness.
  erewrite bind_ok by exact E.
  erewrite bind_ok by (unfold lift; by rewrite Hys).
  destruct ys as [|y0 ys'].
  - destruct data; [|done].
    rewrite sorted_set_int_nil. cbn [summary_hist_loop].
    erewrite bind_ok by reflexivity.
    erewrite bind_ok by by apply np_argsort_ok.
    apply bind_raise. unfold lift. f_equal.
    change (seq 0 10) with (0%nat :: seq 1 9).
    apply image_row_loop_no_data.
  - destruct (sorted_set_int_cons (y0 :: ys')) as (y & rest & ->); [done|].
    apply bind_raise. cbn [summary_hist_loop].
    destruct (class_label label_names y) as [label|e] eqn:El.
    + erewrite bind_ok by reflexivity.
      apply bind_raise. apply (np_getitem_mask_mismatch h' a s); [done|].
      rewrite np_equal_length. congruence.
    + apply bind_raise. unfold lift.
      destruct label_names; [|done].
      by rewrite (py_getitem_raises _ _ _ El).
Qed.

(** A row of images, axes by axes, and the letter set beside it. *)
Lemma image_row_loop_layout data indices row letter dy m :
  ∀ k fig,
    (k + m ≤ length indices)%nat →
    Forall (λ idx, (idx < length data)%nat) indices →
    ∃ fig',
      image_row_loop data indices row letter dy (seq k m) fig = Ok fig' ∧
      fig_axes fig' =
        fig_axes fig ++ ((λ i, image_axes data row i (indices !!! i)) <$> seq k m) ∧
      text_s <$> fig_texts fig' =
        (text_s <$> fig_texts fig) ++
        (if decide (k = 0%nat ∧ m ≠ 0%nat) then [letter] else []).
Proof.
  induction m as [|m IH]; intros k fig Hk Hdata.
  - exists fig. simpl. rewrite app_nil_r.
    rewrite decide_False by (intros [_ ?]; done). by rewrite app_nil_r.
  - destruct (lookup_lt_is_Some_2 indices k) as [idx Hidx]; [lia|].
    assert (idx < length data)%nat as Hlt.
    { eapply Forall_forall in Hdata; [exact Hdata|]. by eapply list_elem_of_lookup_2. }
    destruct (lookup_lt_is_Some_2 data idx Hlt) as [[x y] Hxy].
    cbn [seq image_row_loop].
    rewrite (py_getitem_ok indices k idx Hidx).
    rewrite (py_getitem_ok data idx (x, y) Hxy).
    edestruct (IH (S k)) as (fig' & E & Hax & Htx); [lia|exact Hdata|].
    exists fig'. split; [exact E|].
    rewrite Hax, Htx. cbn [fig_axes fig_with_axes fig_texts fmap list_fmap].
    rewrite (list_lookup_total_correct indices k idx Hidx).
    unfold image_axes, displayed.
    rewrite (list_lookup_total_correct data idx (x, y) Hxy).
    rewrite (decide_False (P := S k = 0%nat ∧ _)) by lia. rewrite app_nil_r.
    split.
    + case_decide; cbn [fig_axes fig_text fst]; by rewrite <- app_assoc.
    + destruct (decide (k = 0%nat)) as [->|Hk0].
      * rewrite decide_True by done. cbn [fig_texts fig_text].
        by rewrite fmap_app.
      * rewrite decide_False by (intros [? _]; done). by rewrite app_nil_r.
Qed.

(** The whole figure of the summary, axes by axes. *)
Lemma plot_summary_figure :
  ∀ (h : gmap nat (list Q)) data scores s label_names save_name plt
    is_label_one_hot ys labels,
    convertible h scores s →
    is_argsort s (argsort s) →
    dataset_classes data is_label_one_hot = Ok ys →
    comprehension (class_label label_names) (sorted_set_int ys) = Ok labels →
    length data = length s →
    (10 ≤ length s)%nat →
    ∃ fig h' ax_left,
      plot_summary_of_informativeness data scores label_names save_name plt
        is_label_one_hot h = (Ok (fig, None), h') ∧
      fig_axes fig =
        ax_left ::
        ((λ i, image_axes data (1, 11) i (take 10 (argsort s) !!! i)) <$> seq 0 10) ++
        ((λ i, image_axes data (12, 22) i
                 (drop (length s - 10) (argsort s) !!! i)) <$> seq 0 10) ∧
      ax_slot ax_left = Some (Slot (1, 22) (0, 3)) ∧
      ax_artists ax_left = drawn_class_histograms s ys labels ∧
      length labels = length (sorted_set_int ys) ∧
      StronglySorted Z.le (sorted_set_int ys) ∧ NoDup (sorted_set_int ys) ∧
      ax_legend ax_left = true ∧
      ax_xlabel ax_left = Some "Informativeness of an example" ∧
      ax_ylabel ax_left = Some "Count" ∧
      text_s <$> fig_texts fig = ["A"; "B"; "C"].
Proof.
  intros h data scores s label_names save_name plt one_hot ys labels
    Hc Ha Hys Hlabels Hdata Hten.
  destruct (convert_scores_ok h scores s Hc) as (a & h' & E & Hsub & Hs & Hsh).
  pose proof (is_argsort_length s _ Ha) as Hlen.
  assert (Forall (λ idx, (idx < length data)%nat) (argsort s)) as Hidx.
  { apply Forall_forall. intros i Hi. rewrite Hdata.
    by apply (is_argsort_elem_of s (argsort s) i Ha). }
  unfold plot_summary_of_informativeness.
  erewrite bind_ok by exact E.
  erewrite bind_ok by (unfold lift; by rewrite Hys).
  erewrite bind_ok.
  2:{ apply summary_hist_loop_ok; [exact Hs| |exact Hlabels].
      rewrite <- Hdata. by eapply dataset_classes_length. }
  erewrite bind_ok by by apply np_argsort_ok.
  rewrite slice_to_take by lia.
  rewrite (slice_from_drop (argsort s) 10 ltac:(lia)
           : slice_from (argsort s) (-10) = _).
  rewrite Hlen. change (Z.to_nat 10) with 10%nat.
  set (least := take 10 (argsort s)). set (most := drop (length s - 10) (argsort s)).
  set (arts := zip_with _ (sorted_set_int ys) labels).
  set (ax_left := ax_add_legend (ax_set_ylabel _ _)).
  set (fig0 := fig_text _ _).
  destruct (image_row_loop_layout data least (1, 11) "B" (65 # 1000)%Q 10 0 fig0)
    as (fig1 & E1 & Hax1 & Htx1).
  { unfold least. rewrite length_take. lia. }
  { unfold least. by apply Forall_take. }
  destruct (image_row_loop_layout data most (12, 22) "C" (42 # 1000)%Q 10 0 fig1)
    as (fig2 & E2 & Hax2 & Htx2).
  { unfold most. rewrite length_drop. lia. }
  { unfold most. by apply Forall_drop. }
  erewrite bind_ok by (unfold lift; by rewrite E1).
  erewrite bind_ok by (unfold lift; by rewrite E2).
  destruct (foldl_draw_fields (new_axes (Some (Slot (1, 22) (0, 3)))) arts)
    as (Hxl & Hyl & Hsci & Hslot & Hoff).
  eexists _, h', ax_left. split; [reflexivity|].
  assert (∀ o, fig_axes (match o with Some name => savefig fig2 name | None => fig2 end)
               = fig_axes fig2) as -> by (by intros []).
  assert (∀ o, fig_texts (match o with Some name => savefig fig2 name | None => fig2 end)
               = fig_texts fig2) as -> by (by intros []).
  rewrite Hax2, Hax1, Htx2, Htx1.
  change (fig_axes fig0) with [ax_left].
  change (text_s <$> fig_texts fig0) with ["A"].
  rewrite !decide_True by done.
  split; [by rewrite <- app_assoc|].
  unfold ax_left.
  cbn [ax_slot ax_artists ax_legend ax_xlabel ax_ylabel ax_add_legend
       ax_set_ylabel ax_set_xlabel ax_ticklabel_format_sci].
  split; [exact Hslot|].
  split; [rewrite foldl_draw_artists; reflexivity|].
  split; [by eapply comprehension_length|].
  split; [apply StronglySorted_merge_sort; apply _|].
  split; [unfold sorted_set_int; rewrite merge_sort_Permutation;
          apply NoDup_elements|].
  by repeat split.
Qed.


(** X12: the two rows of the summary and the items they share.  The ten
    image axes after the histogram show the items ranked [take 10] of the
    argsort, position by position, the next ten the items ranked last
    ([drop (length s - 10)]); each row has ten indices.  With at least
    twenty scores no index is in both rows; with fewer, the index at
    position 9 of the first row is the one at position [19 - length s] of
    the second, so the item is shown twice. *)
Theorem summary_rows_overlap :
  ∀ (h : gmap nat (list Q)) data scores s label_names save_name plt
    is_label_one_hot ys labels,
    convertible h scores s →
    is_argsort s (argsort s) →
    dataset_classes data is_label_one_hot = Ok ys →
    comprehension (class_label label_names) (sorted_set_int ys) = Ok labels →
    length data = length s →
    (10 ≤ length s)%nat →
    ∃ fig h' ax_left,
      plot_summary_of_informativeness data scores label_names save_name plt
        is_label_one_hot h = (Ok (fig, None), h') ∧
      fig_axes fig =
        ax_left ::
        ((λ i, image_axes data (1, 11) i (take 10 (argsort s) !!! i)) <$> seq 0 10) ++
        ((λ i, image_axes data (12, 22) i
                 (drop (length s - 10) (argsort s) !!! i)) <$> seq 0 10) ∧
      fig_images fig =
        (displayed data <$> take 10 (argsort s)) ++
        (displayed data <$> drop (length s - 10) (argsort s)) ∧
      length (take 10 (argsort s)) = 10%nat ∧
      length (drop (length s - 10) (argsort s)) = 10%nat ∧
      ((20 ≤ length s)%nat →
       ∀ i, i ∈ take 10 (argsort s) → i ∉ drop (length s - 10) (argsort s)) ∧
      ((length s < 20)%nat →
       ∃ i, take 10 (argsort s) !! 9%nat = Some i ∧
            drop (length s - 10) (argsort s) !! (19 - length s)%nat = Some i).
Proof.
  intros h data scores s label_names save_name plt one_hot ys labels
    Hc Ha Hys Hlabels Hdata Hten.
  destruct (plot_summary_figure h data scores s label_names save_name plt
              one_hot ys labels Hc Ha Hys Hlabels Hdata Hten)
    as (fig & h' & ax_left & E & Hax & _).
  destruct (plot_summary_returns h data scores s label_names save_name plt
              one_hot ys labels Hc Ha Hys Hlabels Hdata Hten)
    as (fig2 & h2 & E2 & _ & Him & _).
  rewrite E in E2. injection E2 as <- <-.
  pose proof (is_argsort_length s _ Ha) as Hlen.
  assert (NoDup (argsort s)) as Hnd.
  { destruct Ha as [Hp _]. rewrite Hp. apply NoDup_seq. }
  exists fig, h', ax_left.
  split; [exact E|]. split; [exact Hax|]. split; [exact Him|].
  split; [rewrite length_take; lia|]. split; [rewrite length_drop; lia|]. split.
  - intros Hbig i Hi Hm.
    apply elem_of_take in Hi as (p & Hp & Hp10).
    apply list_elem_of_lookup_1 in Hm as (q & Hq). rewrite lookup_drop in Hq.
    pose proof (NoDup_lookup _ _ _ _ Hnd Hp Hq). lia.
  - intros Hsmall.
    destruct (lookup_lt_is_Some_2 (argsort s) 9) as [i Hi]; [lia|].
    exists i. split.
    + rewrite lookup_take_lt by lia. exact Hi.
    + rewrite lookup_drop. rewrite <- Hi. f_equal. lia.
Qed.


End Visualizations.

(** ** The claims on concrete inputs *)

Lemma convertible_array3 : convertible store3 (PyNdarray array3) [3 # 1; 1 # 1; 2 # 1]%Q.
Proof. constructor; reflexivity. Defined.

Lemma convertible_array12 : convertible store12 (PyNdarray array12) scores12.
Proof. constructor; reflexivity. Defined.

(** C4, as stated, fails twice: the empty list is none of the three forms and
    raises IndexError, not ValueError; a list whose first element is a tensor
    has an accepted form and is not converted when a later element is no
    tensor. *)
Lemma convert_scores_forms_counterexample :
  (accepted_form (PyList []) = false ∧
   convert_scores_to_numpy (PyList []) store3 = (Raise IndexError, store3)) ∧
  (accepted_form (PyList [PyTensor tensor3; PyFloat 1]) = true ∧
   convert_scores_to_numpy (PyList [PyTensor tensor3; PyFloat 1]) store3 =
   (Raise TypeError, store3)).
Proof. repeat split. Qed.

Lemma convert_scores_to_numpy_cases_witness :
  convertible store3 (PyNdarray array3) [3 # 1; 1 # 1; 2 # 1]%Q ∧
  (∃ a h', convert_scores_to_numpy (PyNdarray array3) store3 = (Ok a, h') ∧
           nd_shape a = [3%nat] ∧ h' !! nd_data a = Some [3 # 1; 1 # 1; 2 # 1]%Q) ∧
  unsupported (PyStr "scores") = true ∧
  convert_scores_to_numpy (PyStr "scores") store3 =
  (Raise (ValueError "Cannot convert scores to a numpy array."), store3).
Proof.
  split; [exact convertible_array3|]. split.
  - destruct (convert_scores_to_numpy_cases store3 (PyNdarray array3)) as [H _].
    exact (H _ convertible_array3).
  - split; [reflexivity|].
    destruct (convert_scores_to_numpy_cases store3 (PyStr "scores")) as (_ & _ & H).
    apply H. reflexivity.
Defined.

(** C9, as stated, fails for a contiguous host tensor: the array returned for
    it is a view of the caller's own buffer, not a new one. *)
Lemma convert_scores_tensor_shares_buffer_counterexample :
  convertible store3 (PyTensor tensor3) [3 # 1; 1 # 1; 2 # 1]%Q ∧
  convert_scores_to_numpy (PyTensor tensor3) store3 =
  (Ok (Ndarray (t_data tensor3) [3%nat]), store3) ∧
  store3 !! t_data tensor3 = Some [3 # 1; 1 # 1; 2 # 1]%Q.
Proof. split; [|split]; [by constructor|reflexivity..]. Qed.

Lemma plotting_leaves_scores_unchanged_witness :
  store3 !! 0%nat = Some [3 # 1; 1 # 1; 2 # 1]%Q ∧
  (plot_histogram_of_informativeness even_bin_edges count_kde (PyNdarray array3)
     (Some labels3) (BinCount 50) None None false false (2 # 10000) store3).2
    !! 0%nat = Some [3 # 1; 1 # 1; 2 # 1]%Q ∧
  (plot_least_or_most_informative_examples merge_argsort show_examples data3
     (PyNdarray array3) None None false 10 [] store3).2
    !! 0%nat = Some [3 # 1; 1 # 1; 2 # 1]%Q ∧
  (∃ a h', convert_scores_to_numpy (PyNdarray array3) store3 = (Ok a, h') ∧
           store3 !! nd_data a = None).
Proof.
  destruct (plotting_leaves_scores_unchanged even_bin_edges count_kde merge_argsort
              show_examples no_normalization pixels store3 (PyNdarray array3))
    as [Hframe Hfresh].
  destruct (Hframe 0%nat [3 # 1; 1 # 1; 2 # 1]%Q eq_refl) as (_ & Hh & Hl & _).
  split; [reflexivity|]. split; [apply Hh|]. split; [apply Hl|].
  apply (Hfresh _ convertible_array3). reflexivity.
Defined.

Lemma nul_free_labels3 : Forall nul_free labels3.
Proof. repeat constructor. Qed.



Lemma sorted_labels3 : sorted_set_str labels3 = ["a"; "b"].
Proof. vm_compute. reflexivity. Qed.

Lemma histograms_share_first_edges_witness :
  convertible store3 (PyNdarray array3) [3 # 1; 1 # 1; 2 # 1]%Q ∧
  length labels3 = length [3 # 1; 1 # 1; 2 # 1]%Q ∧
  Forall nul_free labels3 ∧
  sorted_set_str labels3 = ["a"; "b"] ∧
  hist_call_ok even_bin_edges labels3 [3 # 1; 1 # 1; 2 # 1]%Q (BinCount 50) = true ∧
  ∃ fig ax h',
    plot_histogram_of_informativeness even_bin_edges count_kde (PyNdarray array3)
      (Some labels3) (BinCount 50) None None false false (2 # 10000) store3 =
    (Ok (fig, ax), h') ∧
    Forall (λ art, artist_edges even_bin_edges art =
                   Some (hist_edges even_bin_edges
                           (scores_of_group labels3 [3 # 1; 1 # 1; 2 # 1]%Q "a")
                           (BinCount 50)))
      (ax_artists ax).
Proof.
  split; [exact convertible_array3|]. split; [reflexivity|].
  split; [exact nul_free_labels3|]. split; [exact sorted_labels3|].
  split; [vm_compute; reflexivity|].
  destruct (histograms_share_first_edges even_bin_edges count_kde store3
              (PyNdarray array3) [3 # 1; 1 # 1; 2 # 1]%Q labels3 (BinCount 50)
              None None false (2 # 10000) "a" ["b"] convertible_array3 eq_refl
              nul_free_labels3 sorted_labels3 eq_refl)
    as (fig & ax & h' & E & _ & HF).
  exists fig, ax, h'. split; [exact E|exact HF].
Defined.


(** C7, as stated, fails for an empty score array: without groups the plot
    then has no label to loop over and draws nothing, neither a histogram
    nor, under density estimation, a curve. *)
Lemma no_groups_empty_scores_counterexample :
  convertible store0 (PyNdarray array0) [] ∧
  drawn (plot_histogram_of_informativeness even_bin_edges count_kde
           (PyNdarray array0) None (BinCount 50) None None false false
           (2 # 10000) store0) = Some [] ∧
  drawn (plot_histogram_of_informativeness even_bin_edges count_kde
           (PyNdarray array0) None (BinCount 50) None None false true
           (2 # 10000) store0) = Some [].
Proof. split; [|split]; [by constructor|vm_compute; reflexivity..]. Qed.

Lemma no_groups_single_plot_witness :
  convertible store3 (PyNdarray array3) [3 # 1; 1 # 1; 2 # 1]%Q ∧
  amax [3 # 1; 1 # 1; 2 # 1]%Q = Some (3 # 1)%Q ∧
  single_call_ok false (BinCount 50) (2 # 10000) ∧
  ∃ fig ax h',
    plot_histogram_of_informativeness even_bin_edges count_kde (PyNdarray array3)
      None (BinCount 50) None None false false (2 # 10000) store3 =
    (Ok (fig, ax), h') ∧
    ax_legend ax = false ∧
    ax_artists ax = [Hist [3 # 1; 1 # 1; 2 # 1]%Q (BinCount 50) (1 # 2) "dummy" false].
Proof.
  split; [exact convertible_array3|]. split; [reflexivity|].
  split; [reflexivity|].
  destruct (no_groups_single_plot even_bin_edges count_kde store3 (PyNdarray array3)
              [3 # 1; 1 # 1; 2 # 1]%Q (BinCount 50) None None false false
              (2 # 10000) convertible_array3)
    as [Hone _].
  exact (Hone (3 # 1)%Q eq_refl eq_refl).
Defined.

Lemma convertible_array2 : convertible store2 (PyNdarray array2) [1 # 1; 2 # 1]%Q.
Proof. constructor; reflexivity. Qed.




(** C5, as stated, fails twice.  With a bin count of zero the first
    histogram raises ValueError and no later group is histogrammed.  With
    two labels that differ by a trailing NUL character the shared edges are
    those of both scores, not of the one score labelled with the first
    label: the last edge is 2, not 1. *)
Lemma histograms_share_edges_counterexample :
  convertible store3 (PyNdarray array3) [3 # 1; 1 # 1; 2 # 1]%Q ∧
  sorted_set_str labels3 = ["a"; "b"] ∧
  (plot_histogram_of_informativeness even_bin_edges count_kde
     (PyNdarray array3) (Some labels3) (BinCount 0) None None false false
     (2 # 10000) store3).1 =
  Raise (ValueError "bins must be positive, when an integer, and increase monotonically, when an array") ∧
  convertible store2 (PyNdarray array2) [1 # 1; 2 # 1]%Q ∧
  sorted_set_str labels_nul = labels_nul ∧
  scores_of_group labels_nul [1 # 1; 2 # 1]%Q "a" = [1 # 1]%Q ∧
  (λ arts : list artist, artist_edges even_bin_edges <$> arts)
    <$> drawn (plot_histogram_of_informativeness even_bin_edges count_kde
                 (PyNdarray array2) (Some labels_nul) (BinCount 50) None None
                 false false (2 # 10000) store2) =
  Some [Some (hist_edges even_bin_edges [1 # 1; 2 # 1]%Q (BinCount 50));
        Some (hist_edges even_bin_edges [1 # 1; 2 # 1]%Q (BinCount 50))] ∧
  Qeq_bool (nth 50 (hist_edges even_bin_edges [1 # 1; 2 # 1]%Q (BinCount 50)) 0%Q) 2%Q
  = true ∧
  Qeq_bool (nth 50 (hist_edges even_bin_edges [1 # 1]%Q (BinCount 50)) 0%Q) 1%Q = true.
Proof.
  split; [exact convertible_array3|]. split; [exact sorted_labels3|].
  split; [vm_compute; reflexivity|]. split; [exact convertible_array2|].
  repeat split; vm_compute; reflexivity.
Qed.


Lemma classes12 :
  dataset_classes data12 false = Ok [0; 1; 0; 1; 0; 1; 0; 1; 0; 1; 0; 1].
Proof. vm_compute. reflexivity. Qed.

Lemma class_labels12 :
  comprehension (class_label None)
    (sorted_set_int [0; 1; 0; 1; 0; 1; 0; 1; 0; 1; 0; 1]) = Ok ["0"; "1"].
Proof. vm_compute. reflexivity. Qed.

(** C1, as stated, fails when there are fewer scores than examples asked for:
    with three scores and the default of ten examples the display helper gets
    the three indices there are, and the summary, which reads ten positions
    of each slice, raises IndexError. *)
Lemma ranked_examples_fewer_scores_counterexample :
  convertible store3 (PyNdarray array3) [3 # 1; 1 # 1; 2 # 1]%Q ∧
  shown (plot_least_or_most_informative_examples merge_argsort show_examples data3
           (PyNdarray array3) None None false 10 [] store3) =
  Some [[11 # 1]; [12 # 1]; [10 # 1]]%Q ∧
  (plot_summary_of_informativeness even_bin_edges merge_argsort no_normalization
     pixels data3 (PyNdarray array3) None None None false store3).1 =
  Raise IndexError.
Proof. split; [|split]; [by constructor|vm_compute; reflexivity..]. Qed.

Lemma ranked_examples_selected_witness :
  convertible store12 (PyNdarray array12) scores12 ∧
  is_argsort scores12 (merge_argsort scores12) ∧
  (∃ indices h',
     plot_least_or_most_informative_examples merge_argsort show_examples data12
       (PyNdarray array12) None None true 3 [] store12 =
     (show_examples data12 indices 1 3 None (Pyplot true false) [], h') ∧
     lowest_ranked scores12 3 indices) ∧
  (∃ fig h' least most,
     plot_summary_of_informativeness even_bin_edges merge_argsort no_normalization
       pixels data12 (PyNdarray array12) None None None false store12 =
     (Ok (fig, None), h') ∧
     lowest_ranked scores12 10 least ∧ highest_ranked scores12 10 most ∧
     fig_images fig =
       (displayed no_normalization pixels data12 <$> least) ++
       (displayed no_normalization pixels data12 <$> most)).
Proof.
  split; [exact convertible_array12|].
  split; [apply merge_argsort_is_argsort|].
  destruct (ranked_examples_selected even_bin_edges merge_argsort show_examples
              no_normalization pixels store12 (PyNdarray array12) scores12
              convertible_array12 (merge_argsort_is_argsort scores12))
    as [Hex Hsum].
  split.
  - apply (Hex data12 None None true 3 []). simpl. lia.
  - apply (Hsum data12 None None None false _ _ classes12 class_labels12).
    + reflexivity.
    + simpl. lia.
Defined.


(** ** The further properties on concrete inputs *)

Lemma convertible_array0 : convertible store0 (PyNdarray array0) [].
Proof. constructor; reflexivity. Defined.

Lemma classes3 : dataset_classes data3 false = Ok [0; 1; 0].
Proof. vm_compute. reflexivity. Qed.

Lemma class_labels3 :
  comprehension (class_label None) (sorted_set_int [0; 1; 0]) = Ok ["0"; "1"].
Proof. vm_compute. reflexivity. Qed.

Lemma conversion_error_propagates_witness :
  convert_scores_to_numpy (PyList [PyFloat 1]) store3 =
  (Raise (ValueError "Cannot convert scores to a numpy array."), store3) ∧
  plot_histogram_of_informativeness even_bin_edges count_kde (PyList [PyFloat 1])
    None (BinCount 50) None None false false (2 # 10000) store3 =
  (Raise (ValueError "Cannot convert scores to a numpy array."), store3) ∧
  plot_summary_of_informativeness even_bin_edges merge_argsort no_normalization
    pixels data3 (PyList [PyFloat 1]) None None None false store3 =
  (Raise (ValueError "Cannot convert scores to a numpy array."), store3).
Proof.
  split; [reflexivity|].
  destruct (conversion_error_propagates even_bin_edges count_kde merge_argsort
              show_examples no_normalization pixels store3 store3
              (PyList [PyFloat 1])
              (ValueError "Cannot convert scores to a numpy array.") eq_refl)
    as (Hh & _ & Hs).
  split; [apply Hh|apply Hs].
Defined.

Lemma convert_array3 :
  convert_scores_to_numpy (PyNdarray array3) store3 =
  (Ok (Ndarray 1 [3%nat]), (convert_scores_to_numpy (PyNdarray array3) store3).2).
Proof. vm_compute. reflexivity. Qed.

Lemma convert_scores_twice_witness :
  convertible store3 (PyNdarray array3) [3 # 1; 1 # 1; 2 # 1]%Q ∧
  ∃ a' h2,
    convert_scores_to_numpy (PyNdarray (Ndarray 1 [3%nat]))
      (convert_scores_to_numpy (PyNdarray array3) store3).2 = (Ok a', h2) ∧
    nd_shape a' = [3%nat] ∧ h2 !! nd_data a' = Some [3 # 1; 1 # 1; 2 # 1]%Q ∧
    nd_data a' ≠ 1%nat.
Proof.
  split; [exact convertible_array3|].
  destruct (convert_scores_twice store3 _ (PyNdarray array3) _ _
              convertible_array3 convert_array3)
    as (a' & h2 & E & Hsh & Hs & _ & Hne).
  exists a', h2. split; [exact E|]. split; [exact Hsh|]. split; [exact Hs|exact Hne].
Defined.

Lemma histogram_axes_labelled_witness :
  convertible store3 (PyNdarray array3) [3 # 1; 1 # 1; 2 # 1]%Q ∧
  groups_ok (Some labels3) [3 # 1; 1 # 1; 2 # 1]%Q ∧
  call_ok even_bin_edges false (plotted_labels (Some labels3) [3 # 1; 1 # 1; 2 # 1]%Q)
    [3 # 1; 1 # 1; 2 # 1]%Q (BinCount 50) (2 # 10000) = true ∧
  ∃ fig ax h',
    plot_histogram_of_informativeness even_bin_edges count_kde (PyNdarray array3)
      (Some labels3) (BinCount 50) None None true false (2 # 10000) store3 =
    (Ok (fig, ax), h') ∧
    ax_ylabel ax = Some "Density" ∧ ax_sci ax = ["x"; "y"].
Proof.
  split; [exact convertible_array3|]. split; [reflexivity|].
  split; [vm_compute; reflexivity|].
  destruct (histogram_axes_labelled even_bin_edges count_kde store3
              (PyNdarray array3) [3 # 1; 1 # 1; 2 # 1]%Q (Some labels3)
              (BinCount 50) None None true false (2 # 10000)
              convertible_array3 eq_refl eq_refl)
    as (fig & ax & h' & E & _ & Hy & Hsci).
  exists fig, ax, h'. split; [exact E|]. split; [exact Hy|exact Hsci].
Defined.

Lemma empty_scores_draw_nothing_witness :
  convertible store0 (PyNdarray array0) [] ∧
  groups_ok None [] ∧
  ∃ fig ax h',
    plot_histogram_of_informativeness even_bin_edges count_kde (PyNdarray array0)
      None (BinCount 50) None None false true (2 # 10000) store0 =
    (Ok (fig, ax), h') ∧
    ax_artists ax = [].
Proof.
  split; [exact convertible_array0|]. split; [exact I|].
  destruct (empty_scores_draw_nothing even_bin_edges count_kde store0
              (PyNdarray array0) None (BinCount 50) None None false true
              (2 # 10000) convertible_array0 I)
    as (fig & ax & h' & E & Harts & _).
  exists fig, ax, h'. split; [exact E|exact Harts].
Defined.

Lemma mismatched_groups_witness :
  convertible store3 (PyNdarray array3) [3 # 1; 1 # 1; 2 # 1]%Q ∧
  length ["a"; "b"] ≠ length [3 # 1; 1 # 1; 2 # 1]%Q ∧
  ∃ h',
    plot_histogram_of_informativeness even_bin_edges count_kde (PyNdarray array3)
      (Some ["a"; "b"]) (BinCount 50) None None false false (2 # 10000) store3 =
    (Raise IndexError, h').
Proof.
  split; [exact convertible_array3|].
  assert (length ["a"; "b"] ≠ length [3 # 1; 1 # 1; 2 # 1]%Q) as Hne
    by (simpl; lia).
  split; [exact Hne|].
  destruct (mismatched_groups even_bin_edges count_kde store3 (PyNdarray array3)
              [3 # 1; 1 # 1; 2 # 1]%Q ["a"; "b"] (BinCount 50) None None false
              false (2 # 10000) convertible_array3 Hne)
    as [Hraise _].
  apply Hraise. discriminate.
Defined.

Lemma figures_saved_when_named_witness :
  convertible store3 (PyNdarray array3) [3 # 1; 1 # 1; 2 # 1]%Q ∧
  (∃ fig ax h',
     plot_histogram_of_informativeness even_bin_edges count_kde (PyNdarray array3)
       None (BinCount 50) None (Some "") false false (2 # 10000) store3 =
     (Ok (fig, ax), h') ∧ fig_saved fig = []) ∧
  (∃ fig ax h',
     plot_histogram_of_informativeness even_bin_edges count_kde (PyNdarray array3)
       None (BinCount 50) None (Some "hist.pdf") false false (2 # 10000) store3 =
     (Ok (fig, ax), h') ∧ fig_saved fig = ["hist.pdf"]).
Proof.
  split; [exact convertible_array3|].
  destruct (figures_saved_when_named even_bin_edges count_kde merge_argsort
              no_normalization pixels store3 (PyNdarray array3)
              [3 # 1; 1 # 1; 2 # 1]%Q convertible_array3)
    as [Hhist _].
  split.
  - apply (Hhist None (BinCount 50) None (Some "") false false (2 # 10000) I eq_refl).
  - apply (Hhist None (BinCount 50) None (Some "hist.pdf") false false (2 # 10000) I
             eq_refl).
Defined.

Lemma example_slices_clamp_witness :
  convertible store3 (PyNdarray array3) [3 # 1; 1 # 1; 2 # 1]%Q ∧
  length (merge_argsort [3 # 1; 1 # 1; 2 # 1]%Q) = 3%nat ∧
  (∃ h',
     plot_least_or_most_informative_examples merge_argsort show_examples data3
       (PyNdarray array3) None None false 0 [] store3 =
     (show_examples data3 (merge_argsort [3 # 1; 1 # 1; 2 # 1]%Q) 1 0 None
        (Pyplot true false) [], h')) ∧
  (∃ h',
     plot_least_or_most_informative_examples merge_argsort show_examples data3
       (PyNdarray array3) None None true 10 [] store3 =
     (show_examples data3 (merge_argsort [3 # 1; 1 # 1; 2 # 1]%Q) 1 10 None
        (Pyplot true false) [], h')).
Proof.
  split; [exact convertible_array3|].
  assert (length (merge_argsort [3 # 1; 1 # 1; 2 # 1]%Q) = 3%nat) as Hlen
    by (vm_compute; reflexivity).
  split; [exact Hlen|].
  destruct (example_slices_clamp merge_argsort show_examples store3 data3
              (PyNdarray array3) [3 # 1; 1 # 1; 2 # 1]%Q None None []
              convertible_array3 Hlen)
    as (Hall & _ & Hmost0).
  split; [exact Hmost0|].
  apply (Hall true 10); simpl; lia.
Defined.

Lemma summary_needs_ten_scores_witness :
  convertible store3 (PyNdarray array3) [3 # 1; 1 # 1; 2 # 1]%Q ∧
  (length [3 # 1; 1 # 1; 2 # 1]%Q < 10)%nat ∧
  ∃ h',
    plot_summary_of_informativeness even_bin_edges merge_argsort no_normalization
      pixels data3 (PyNdarray array3) None None None false store3 =
    (Raise IndexError, h').
Proof.
  split; [exact convertible_array3|].
  assert (length [3 # 1; 1 # 1; 2 # 1]%Q < 10)%nat as Hfew by (simpl; lia).
  split; [exact Hfew|].
  exact (summary_needs_ten_scores even_bin_edges merge_argsort no_normalization
           pixels store3 data3 (PyNdarray array3) _ None None None false _ _
           convertible_array3 (merge_argsort_is_argsort _) classes3 class_labels3
           eq_refl Hfew).
Defined.

Lemma summary_needs_item_per_score_witness :
  convertible store12 (PyNdarray array12) scores12 ∧
  length data3 ≠ length scores12 ∧
  ∃ h',
    plot_summary_of_informativeness even_bin_edges merge_argsort no_normalization
      pixels data3 (PyNdarray array12) None None None false store12 =
    (Raise IndexError, h').
Proof.
  split; [exact convertible_array12|].
  assert (length data3 ≠ length scores12) as Hne by (simpl; lia).
  split; [exact Hne|].
  exact (summary_needs_item_per_score even_bin_edges merge_argsort no_normalization
           pixels store12 data3 (PyNdarray array12) _ None None None false _
           convertible_array12 classes3 Hne).
Defined.


Lemma convertible_array20 : convertible store20 (PyNdarray array20) scores20.
Proof. by constructor. Qed.

Lemma classes20 :
  dataset_classes data20 false =
  Ok [0; 1; 0; 1; 0; 1; 0; 1; 0; 1; 0; 1; 0; 1; 0; 1; 0; 1; 0; 1].
Proof. vm_compute. reflexivity. Qed.

Lemma class_labels20 :
  comprehension (class_label None)
    (sorted_set_int [0; 1; 0; 1; 0; 1; 0; 1; 0; 1; 0; 1; 0; 1; 0; 1; 0; 1; 0; 1])
  = Ok ["0"; "1"].
Proof. vm_compute. reflexivity. Qed.

Lemma summary_rows_overlap_witness :
  (convertible store12 (PyNdarray array12) scores12 ∧
   is_argsort scores12 (merge_argsort scores12) ∧
   (10 ≤ length scores12)%nat ∧ (length scores12 < 20)%nat ∧
   ∃ fig h' ax_left,
     plot_summary_of_informativeness even_bin_edges merge_argsort no_normalization
       pixels data12 (PyNdarray array12) None None None false store12 =
     (Ok (fig, None), h') ∧
     fig_axes fig =
       ax_left ::
       ((λ i, image_axes no_normalization pixels data12 (1, 11) i
                (take 10 (merge_argsort scores12) !!! i)) <$> seq 0 10) ++
       ((λ i, image_axes no_normalization pixels data12 (12, 22) i
                (drop (length scores12 - 10) (merge_argsort scores12) !!! i))
          <$> seq 0 10) ∧
     ∃ i, take 10 (merge_argsort scores12) !! 9%nat = Some i ∧
          drop (length scores12 - 10) (merge_argsort scores12)
            !! (19 - length scores12)%nat = Some i) ∧
  (convertible store20 (PyNdarray array20) scores20 ∧
   is_argsort scores20 (merge_argsort scores20) ∧
   (20 ≤ length scores20)%nat ∧
   ∃ fig h' ax_left,
     plot_summary_of_informativeness even_bin_edges merge_argsort no_normalization
       pixels data20 (PyNdarray array20) None None None false store20 =
     (Ok (fig, None), h') ∧
     fig_axes fig =
       ax_left ::
       ((λ i, image_axes no_normalization pixels data20 (1, 11) i
                (take 10 (merge_argsort scores20) !!! i)) <$> seq 0 10) ++
       ((λ i, image_axes no_normalization pixels data20 (12, 22) i
                (drop (length scores20 - 10) (merge_argsort scores20) !!! i))
          <$> seq 0 10) ∧
     Forall (λ i, i ∉ drop (length scores20 - 10) (merge_argsort scores20))
       (take 10 (merge_argsort scores20))).
Proof.
  split.
  - split; [exact convertible_array12|].
    split; [apply merge_argsort_is_argsort|].
    assert (10 ≤ length scores12)%nat as Hten by (simpl; lia).
    assert (length scores12 < 20)%nat as Hsmall by (simpl; lia).
    split; [exact Hten|]. split; [exact Hsmall|].
    destruct (summary_rows_overlap even_bin_edges merge_argsort no_normalization
                pixels store12 data12 (PyNdarray array12) scores12 None None None
                false _ _ convertible_array12 (merge_argsort_is_argsort scores12)
                classes12 class_labels12 eq_refl Hten)
      as (fig & h' & ax_left & E & Hax & _ & _ & _ & _ & Hshare).
    exists fig, h', ax_left. split; [exact E|]. split; [exact Hax|].
    exact (Hshare Hsmall).
  - split; [exact convertible_array20|].
    split; [apply merge_argsort_is_argsort|].
    assert (10 ≤ length scores20)%nat as Hten by (simpl; lia).
    assert (20 ≤ length scores20)%nat as Hbig by (simpl; lia).
    split; [exact Hbig|].
    destruct (summary_rows_overlap even_bin_edges merge_argsort no_normalization
                pixels store20 data20 (PyNdarray array20) scores20 None None None
                false _ _ convertible_array20 (merge_argsort_is_argsort scores20)
                classes20 class_labels20 eq_refl Hten)
      as (fig & h' & ax_left & E & Hax & _ & _ & _ & Hdisj & _).
    exists fig, h', ax_left. split; [exact E|]. split; [exact Hax|].
    apply Forall_forall. exact (Hdisj Hbig).
Defined.
